(** * The SQL query writer scaffold: [agent.py] and [db/bike_store.py]

    A shallow embedding of the two Python modules and the properties of
    them that the specification states.

    Python [str] values are Rocq strings read as UTF-8 bytes.  Python
    exceptions are a class name with a message; code that can raise returns
    an [outcome].  Code that talks to something outside the process (the
    generation backend, the file system, DuckDB) runs in a state monad
    whose state is that outside world. *)

From Stdlib Require Import String Ascii List Bool Arith ZArith Lia.
From stdpp Require Import base option gmap strings list pretty.
Import ListNotations.
Open Scope string_scope.
Open Scope list_scope.

(** ** Python values common to both modules *)

(** A raised exception: the class that was raised and its message. *)
Record exn := Exn { exn_class : string; exn_msg : string }.

Inductive outcome (A : Type) : Type :=
| Return (a : A)
| Raise (e : exn).
Arguments Return {A} a.
Arguments Raise {A} e.

(** Statements that may raise and that act on an outside world [W]. *)
Definition M (W A : Type) : Type := W -> outcome A * W.

Definition ret {W A} (a : A) : M W A := fun w => (Return a, w).
Definition raise {W A} (e : exn) : M W A := fun w => (Raise e, w).
Definition bind {W A B} (c : M W A) (k : A -> M W B) : M W B :=
  fun w => match c w with
           | (Return a, w') => k a w'
           | (Raise e, w') => (Raise e, w')
           end.

Notation "x <- c ;; k" := (bind c (fun x => k))
  (at level 100, c at next level, right associativity).
Notation "c ;;; k" := (bind c (fun _ => k))
  (at level 100, right associativity).

(** A [for] loop whose body updates one local variable. *)
Fixpoint for_each {W A B} (l : list A) (body : A -> B -> M W B) (acc : B)
  : M W B :=
  match l with
  | [] => ret acc
  | x :: l' => acc' <- body x acc ;; for_each l' body acc'
  end.

(** A list comprehension whose element expression may raise. *)
Fixpoint comprehension {W A B} (f : A -> M W B) (l : list A) : M W (list B) :=
  match l with
  | [] => ret []
  | x :: l' => y <- f x ;; ys <- comprehension f l' ;; ret (y :: ys)
  end.

Definition LF : string := String (ascii_of_nat 10) "".

(** [sep.join(parts)] *)
Definition str_join (sep : string) (parts : list string) : string :=
  String.concat sep parts.

(** One entry of a table's column list: the dict
    [{"name": col[0], "type": col[1]}]. *)
Record column := Column { col_name : string; col_type : string }.

(** The dict that [get_schema_info] builds, in insertion order, which is the
    order in which [.items()] yields it. *)
Abbreviation schema_dict := (list (string * list column)) (only parsing).

(** [d[k] = v] on an insertion-ordered dict: an existing key keeps its
    position, a new key goes last. *)
Fixpoint dict_set {V} (k : string) (v : V) (d : list (string * V))
  : list (string * V) :=
  match d with
  | [] => [(k, v)]
  | (k', v') :: d' =>
      if String.eqb k' k then (k, v) :: d' else (k', v') :: dict_set k v d'
  end.


(** ** [agent.py] *)

Module Agent.

(** [ollama.Client(host=host)] *)
Record ollama_client := { host : string }.

(** One [client.chat(model=..., messages=[...])] request; a message is its
    role and its content. *)
Record chat_request := {
  chat_model : string;
  chat_messages : list (string * string)
}.

(** The generation backend as the agent sees it: the requests sent so far. *)
Abbreviation backend := (list chat_request) (only parsing).

Record QueryWriter := {
  db_path : string;
  schema : schema_dict;
  client : ollama_client;
  model : string
}.

Definition NotImplementedError (msg : string) : exn :=
  Exn "NotImplementedError" msg.

(** The body of [generate_query] is one [raise] statement; the example
    implementation above it is a comment. *)
Definition generate_query (self : QueryWriter) (prompt : string)
  : M backend string :=
  raise (NotImplementedError "Implement the generate_query method!").

(** The errors that the specification declares. *)
Definition declared_errors : list string :=
  ["EmptyQuestion"; "CatalogUnavailable"; "BackendUnavailable";
   "MalformedGeneration"; "ExampleSchemaMismatch"].

Definition _format_schema (self : QueryWriter) : string :=
  let schema_parts :=
    fold_left
      (fun schema_parts '(table_name, columns) =>
         let cols :=
           str_join ", "
             (map (fun col => col_name col +:+ " (" +:+ col_type col +:+ ")")
                  columns) in
         schema_parts ++ ["Table " +:+ table_name +:+ ": " +:+ cols])
      (schema self) [] in
  str_join LF schema_parts.

(** *** The formatter as the specification words it *)

(** One column as a name followed by its type in parentheses. *)
Definition column_pair (col : column) : string :=
  col_name col +:+ " (" +:+ col_type col +:+ ")".

(** The line of one table: its name, then its columns separated by commas,
    in the order the table lists them. *)
Definition table_line (entry : string * list column) : string :=
  "Table " +:+ fst entry +:+ ": " +:+ str_join ", " (map column_pair (snd entry)).

(** One line per table, in the order of the catalog. *)
Definition format_spec (catalog : schema_dict) : string :=
  str_join LF (map table_line catalog).

(** The keywords a query begins with, as the specification names them. *)
Definition query_keywords : list string := ["SELECT"; "WITH"].

Definition begins_with_query_keyword (sql : string) : bool :=
  existsb (fun keyword => String.prefix keyword sql) query_keywords.

(** *** Sample values *)

Definition sample_schema : schema_dict :=
  [("products",
    [Column "product_id" "INTEGER"; Column "product_name" "VARCHAR"]);
   ("brands", [Column "brand_id" "INTEGER"; Column "brand_name" "VARCHAR"])].

Definition local_writer : QueryWriter := {|
  db_path := "bike_store.db";
  schema := sample_schema;
  client := {| host := "http://localhost:11434" |};
  model := "llama3.2"
|}.

Definition remote_writer : QueryWriter := {|
  db_path := "copy_of_bike_store.db";
  schema := sample_schema;
  client := {| host := "http://llm.example.org:11434" |};
  model := "mistral"
|}.

End Agent.

(** ** [db/bike_store.py] *)

Module BikeStore.

(** *** The [str] and [os.path] functions the module calls *)

(** [str.lower] changes the letters A to Z only among the bytes below 128,
    and no character outside that range lowers to one of [.csv]. *)
Definition lower_char (c : ascii) : ascii :=
  let n := nat_of_ascii c in
  if (65 <=? n)%nat && (n <=? 90)%nat then ascii_of_nat (n + 32) else c.

Fixpoint str_lower (s : string) : string :=
  match s with
  | EmptyString => EmptyString
  | String c s' => String (lower_char c) (str_lower s')
  end.

(** [s.endswith(suffix)] *)
Fixpoint str_endswith (s suffix : string) : bool :=
  String.eqb s suffix
  || match s with
     | EmptyString => false
     | String _ s' => str_endswith s' suffix
     end.

(** [s.startswith(prefix)] *)
Definition str_startswith (s prefix : string) : bool := String.prefix prefix s.

(** [p.rfind(c)] for a one-character [c]: the highest index, or -1. *)
Fixpoint rfind (c : ascii) (p : string) : Z :=
  match p with
  | EmptyString => (-1)%Z
  | String a p' =>
      let r := rfind c p' in
      if (0 <=? r)%Z then (r + 1)%Z
      else if Ascii.eqb a c then 0%Z else (-1)%Z
  end.

(** [p[lo:hi]] for [0 <= lo]. *)
Definition slice (p : string) (lo hi : Z) : string :=
  String.substring (Z.to_nat lo) (Z.to_nat (hi - lo)) p.

(** [p[lo:]] for [0 <= lo]. *)
Definition slice_from (p : string) (lo : Z) : string :=
  String.substring (Z.to_nat lo) (String.length p - Z.to_nat lo) p.

(** The [while] loop of [genericpath._splitext]: is there a character other
    than the dot between [filenameIndex] and [dotIndex]? *)
Fixpoint splitext_loop (p : string) (dotIndex filenameIndex : Z) (fuel : nat)
  : bool :=
  match fuel with
  | O => false
  | S fuel' =>
      if (filenameIndex <? dotIndex)%Z then
        if negb (String.eqb (slice p filenameIndex (filenameIndex + 1)) ".")
        then true
        else splitext_loop p dotIndex (filenameIndex + 1) fuel'
      else false
  end.

(** [os.path.splitext(p)] of [posixpath]. *)
Definition splitext (p : string) : string * string :=
  let sepIndex := rfind "/" p in
  let dotIndex := rfind "." p in
  if (sepIndex <? dotIndex)%Z
     && splitext_loop p dotIndex (sepIndex + 1) (String.length p)
  then (slice p 0 dotIndex, slice_from p dotIndex)
  else (p, "").

(** [os.path.join(a, b)] of [posixpath]. *)
Definition path_join (a b : string) : string :=
  if str_startswith b "/" then b
  else if String.eqb a "" || str_endswith a "/" then a +:+ b
  else a +:+ "/" +:+ b.

(** *** What the module calls outside the process *)

Abbreviation handle := nat (only parsing).

(** A result row as [fetchall] gives it: a tuple of cells. *)
Abbreviation row := (list string) (only parsing).

(** The operating system and DuckDB, over any outside world [W]. *)
Record platform (W : Type) := {
  listdir : string -> M W (list string);
  connect : string -> bool -> M W handle;
  execute : handle -> string -> M W (list row);
  close : handle -> W -> W;
  print : string -> W -> W
}.
Arguments listdir {W}.
Arguments connect {W}.
Arguments execute {W}.
Arguments close {W}.
Arguments print {W}.

Inductive event :=
| EvConnect (database : string) (read_only : bool) (con : handle)
| EvExecute (con : handle) (sql : string)
| EvClose (con : handle).

(** Every call of [calls] is an [execute] on the connection [con]. *)
Definition executes_on (con : handle) (calls : list event) : Prop :=
  Forall (fun ev => exists sql, ev = EvExecute con sql) calls.

(** A platform that also records the calls that reached DuckDB. *)
Definition traced {W} (P : platform W) : platform (W * list event) := {|
  listdir path := fun '(w, tr) =>
    let '(r, w') := listdir P path w in (r, (w', tr));
  connect database read_only := fun '(w, tr) =>
    match connect P database read_only w with
    | (Return con, w') =>
        (Return con, (w', tr ++ [EvConnect database read_only con]))
    | (Raise e, w') => (Raise e, (w', tr))
    end;
  execute con sql := fun '(w, tr) =>
    let '(r, w') := execute P con sql w in (r, (w', tr ++ [EvExecute con sql]));
  close con := fun '(w, tr) => (close P con w, tr ++ [EvClose con]);
  print text := fun '(w, tr) => (print P text w, tr)
|}.

Section Program.

Context {W : Type} (P : platform W).

Definition lift (f : W -> W) : M W unit := fun w => (Return tt, f w).

(** [(table_name,) = tup] *)
Definition unpack1 (tup : row) : M W string :=
  match tup with
  | [x] => ret x
  | [] => raise (Exn "ValueError"
                     "not enough values to unpack (expected 1, got 0)")
  | _ => raise (Exn "ValueError" "too many values to unpack (expected 1)")
  end.

(** [tup[i]] *)
Definition index (tup : row) (i : nat) : M W string :=
  match nth_error tup i with
  | Some x => ret x
  | None => raise (Exn "IndexError" "tuple index out of range")
  end.

(** [{"name": col[0], "type": col[1]}] *)
Definition column_dict (col : row) : M W column :=
  n <- index col 0 ;;
  t <- index col 1 ;;
  ret {| col_name := n; col_type := t |}.

(** The body of the loop over the rows of [SHOW TABLES]. *)
Definition describe_table (con : handle) (tup : row) (schema_info : schema_dict)
  : M W schema_dict :=
  table_name <- unpack1 tup ;;
  columns <- execute P con ("DESCRIBE " +:+ table_name) ;;
  cols <- comprehension column_dict columns ;;
  ret (dict_set table_name cols schema_info).

Definition get_schema_info (db_path : string) : M W schema_dict :=
  con <- connect P db_path true ;;
  tables <- execute P con "SHOW TABLES" ;;
  schema_info <- for_each tables (describe_table con) [] ;;
  (lift (close P con) ;;;
   ret schema_info).

Record BikeStoreDb := {
  db_path : string;
  download_path : string
}.

Definition indent : string := "                    ".

(** The text of the f-string that [_create_db] executes. *)
Definition create_sql (table_name fpath : string) : string :=
  LF +:+ indent +:+ "CREATE TABLE IF NOT EXISTS " +:+ table_name +:+ " AS"
  +:+ LF +:+ indent +:+ "SELECT * FROM read_csv_auto('" +:+ fpath +:+ "');"
  +:+ LF +:+ indent.

(** The body of the loop over the directory's entries. *)
Definition load_file (self : BikeStoreDb) (con : handle) (fname : string)
  (csv_count : nat) : M W nat :=
  let fpath := path_join (download_path self) fname in
  if str_endswith (str_lower fname) ".csv" then
    let csv_count := csv_count + 1 in
    let table_name := fst (splitext fname) in
    (execute P con (create_sql table_name fpath) ;;;
     ret csv_count)
  else ret csv_count.

Definition _create_db (self : BikeStoreDb) : M W unit :=
  con <- connect P (db_path self) false ;;
  entries <- listdir P (download_path self) ;;
  csv_count <- for_each entries (load_file self con) 0 ;;
  (lift (close P con) ;;;
   lift (print P ("Created " +:+ pretty csv_count +:+ " tables in "
                  +:+ db_path self))).

End Program.

(** *** A reference model of the file system and of DuckDB

    DuckDB is not part of the repository; this is the behaviour of it that
    the module relies on.

    - A database file is its tables, in the order [SHOW TABLES] lists them;
      a table is its name, its columns and its rows.  Where a table that a
      load creates comes in that order is not modelled: it is put last
      here, whereas DuckDB lists tables sorted by name.  What is proved of
      a listing that follows a load is by table name, or up to the order
      of the lines.
    - Opening a file that does not exist creates it empty, or fails when
      the connection is read-only.  Locks between connections are left out.
    - [CREATE TABLE IF NOT EXISTS t AS SELECT * FROM read_csv_auto('p')]
      reads the file [p], then does nothing when a table named [t] exists,
      and otherwise adds the table with the columns and rows detected.
      What read_csv_auto detects in a file is given with the file.
    - Table names compare without regard to letter case.
    - The model covers the three statements the module sends, with table
      names that are bare identifiers and paths without a quote.  Any other
      text is a syntax error here, which is less than DuckDB accepts: the
      properties of a load below are stated for statements within the
      model ([sendable]). *)

Record table := {
  tbl_name : string;
  tbl_columns : list column;
  tbl_rows : list row
}.

Abbreviation database := (list table) (only parsing).

Record duck := {
  dirs : gmap string (list string);
    (* a directory's path to its entries, as os.listdir returns them *)
  csvs : gmap string (list column * list row);
    (* a CSV file's path to what read_csv_auto detects in it *)
  dbs : gmap string database;
    (* a database file's path to its content *)
  conns : gmap nat (string * bool);
    (* an open connection to its database path and read_only flag *)
  next_con : nat;
  stdout : list string
}.

Definition set_dbs (files : gmap string database) (w : duck) : duck :=
  {| dirs := dirs w; csvs := csvs w; dbs := files; conns := conns w;
     next_con := next_con w; stdout := stdout w |}.

Definition set_conns (open : gmap nat (string * bool)) (next : nat) (w : duck)
  : duck :=
  {| dirs := dirs w; csvs := csvs w; dbs := dbs w; conns := open;
     next_con := next; stdout := stdout w |}.

Fixpoint str_forall (f : ascii -> bool) (s : string) : bool :=
  match s with
  | EmptyString => true
  | String c s' => f c && str_forall f s'
  end.

Definition digit_char (c : ascii) : bool :=
  let n := nat_of_ascii c in (48 <=? n)%nat && (n <=? 57)%nat.

Definition ident_char (c : ascii) : bool :=
  let n := nat_of_ascii c in
  ((65 <=? n)%nat && (n <=? 90)%nat)
  || ((97 <=? n)%nat && (n <=? 122)%nat)
  || digit_char c
  || (n =? 95)%nat.

Definition quote_char (c : ascii) : bool := (nat_of_ascii c =? 39)%nat.

Definition quote_free (s : string) : bool :=
  str_forall (fun c => negb (quote_char c)) s.

(** Catalog names compare without regard to letter case. *)
Definition ident_eqb (a b : string) : bool :=
  String.eqb (str_lower a) (str_lower b).

Definition find_table (t : string) (db : database) : option table :=
  List.find (fun tb => ident_eqb (tbl_name tb) t) db.

Inductive statement :=
| ShowTables
| Describe (table_name : string)
| CreateTableAs (table_name : string) (fpath : string)
| Unparsed.

Fixpoint strip_prefix (pre s : string) : option string :=
  match pre, s with
  | EmptyString, _ => Some s
  | String a pre', String b s' =>
      if Ascii.eqb a b then strip_prefix pre' s' else None
  | String _ _, EmptyString => None
  end.

Fixpoint span (f : ascii -> bool) (s : string) : string * string :=
  match s with
  | EmptyString => (EmptyString, EmptyString)
  | String c s' =>
      if f c then let '(a, b) := span f s' in (String c a, b)
      else (EmptyString, s)
  end.

Definition create_head : string :=
  LF +:+ indent +:+ "CREATE TABLE IF NOT EXISTS ".
Definition create_middle : string :=
  " AS" +:+ LF +:+ indent +:+ "SELECT * FROM read_csv_auto('".
Definition create_tail : string := "');" +:+ LF +:+ indent.

Definition parse (sql : string) : statement :=
  if String.eqb sql "SHOW TABLES" then ShowTables
  else
    match strip_prefix "DESCRIBE " sql with
    | Some t => Describe t
    | None =>
        match strip_prefix create_head sql with
        | None => Unparsed
        | Some r =>
            let '(t, r1) := span ident_char r in
            match strip_prefix create_middle r1 with
            | None => Unparsed
            | Some r2 =>
                let '(fpath, r3) := span (fun c => negb (quote_char c)) r2 in
                if String.eqb r3 create_tail then CreateTableAs t fpath
                else Unparsed
            end
        end
    end.

(** The row [DESCRIBE] gives for a column: column_name, column_type, null,
    key, default, extra. *)
Definition describe_row (c : column) : row :=
  [col_name c; col_type c; "YES"; "NULL"; "NULL"; "NULL"].

Definition ParserException : exn := Exn "ParserException" "syntax error".

Section Engine.

(** The words DuckDB reserves, which cannot stand unquoted as a name. *)
Variable reserved : string -> bool.

(** A name that reads back as itself when pasted unquoted into a statement. *)
Definition bare_ident (t : string) : bool :=
  match t with
  | EmptyString => false
  | String c _ => negb (digit_char c)
  end
  && str_forall ident_char t
  && negb (reserved t).

Definition duck_listdir (path : string) : M duck (list string) :=
  fun w =>
    match dirs w !! path with
    | Some entries => (Return entries, w)
    | None => (Raise (Exn "FileNotFoundError" path), w)
    end.

Definition duck_connect (database : string) (read_only : bool)
  : M duck handle :=
  fun w =>
    let con := next_con w in
    let opened (w : duck) : duck :=
      set_conns (<[con := (database, read_only)]> (conns w)) (S con) w in
    match dbs w !! database with
    | Some _ => (Return con, opened w)
    | None =>
        if read_only then
          (Raise (Exn "IOException"
                      "Cannot open database in read-only mode: database does not exist"),
           w)
        else (Return con, opened (set_dbs (<[database := []]> (dbs w)) w))
    end.

Definition duck_execute (con : handle) (sql : string) : M duck (list row) :=
  fun w =>
    let fail (e : exn) : outcome (list row) * duck := (Raise e, w) in
    match conns w !! con with
    | None => fail (Exn "ConnectionException" "Connection already closed")
    | Some (database, read_only) =>
        let db := default [] (dbs w !! database) in
        match parse sql with
        | ShowTables => (Return (map (fun tb => [tbl_name tb]) db), w)
        | Describe t =>
            if bare_ident t then
              match find_table t db with
              | Some tb => (Return (map describe_row (tbl_columns tb)), w)
              | None => fail (Exn "CatalogException" "Table does not exist")
              end
            else fail ParserException
        | CreateTableAs t fpath =>
            if negb (bare_ident t) then fail ParserException
            else if (read_only : bool) then
              fail (Exn "InvalidInputException"
                        "Cannot execute statement in read-only mode")
            else
              match csvs w !! fpath with
              | None => fail (Exn "IOException" "No files found")
              | Some (columns, rows) =>
                  match find_table t db with
                  | Some _ => (Return [], w)
                  | None =>
                      let tb := {| tbl_name := t; tbl_columns := columns;
                                   tbl_rows := rows |} in
                      (Return [],
                       set_dbs (<[database := db ++ [tb]]> (dbs w)) w)
                  end
              end
        | Unparsed => fail ParserException
        end
    end.

Definition duck_close (con : handle) (w : duck) : duck :=
  set_conns (delete con (conns w)) (next_con w) w.

Definition duck_print (text : string) (w : duck) : duck :=
  {| dirs := dirs w; csvs := csvs w; dbs := dbs w; conns := conns w;
     next_con := next_con w; stdout := stdout w ++ [text] |}.

Definition duckdb : platform duck := {|
  listdir := duck_listdir;
  connect := duck_connect;
  execute := duck_execute;
  close := duck_close;
  print := duck_print
|}.

End Engine.

(** *** The load as the specification words it *)

Definition is_csv (fname : string) : bool :=
  str_endswith (str_lower fname) ".csv".

(** [tb] is the table of the file [fname]: named as the file without its
    extension, letter case kept, with the columns and rows that
    read_csv_auto detects in the file. *)
Definition loaded_from (w : duck) (self : BikeStoreDb) (fname : string)
  (tb : table) : Prop :=
  (exists ext, fname = tbl_name tb +:+ ext /\ str_lower ext = ".csv")
  /\ csvs w !! path_join (download_path self) fname
     = Some (tbl_columns tb, tbl_rows tb).

(** From the world [w] the load has led to [w']: the database has gained
    exactly one table per file whose name ends in .csv, in the order of the
    listing, and nothing else. *)
Definition one_table_per_csv_file (self : BikeStoreDb) (w w' : duck) : Prop :=
  exists entries created,
    dirs w !! download_path self = Some entries
    /\ dbs w' !! db_path self
       = Some (default [] (dbs w !! db_path self) ++ created)
    /\ Forall2 (loaded_from w self) (List.filter is_csv entries) created.

(** The files of a listing that the load reads, and the table name it
    derives from a file name. *)
Abbreviation csv_files entries := (List.filter is_csv entries).
Abbreviation stem fname := (fst (splitext fname)).

(** The tables of the database file [file]; none when there is no file. *)
Abbreviation tables_at w file := (default [] (dbs w !! file)).

(** The statement that the load sends for [fname] is within the model: the
    table name is a bare identifier and the path holds no quote. *)
Definition sendable (reserved : string -> bool) (self : BikeStoreDb)
  (fname : string) : bool :=
  bare_ident reserved (fst (splitext fname))
  && quote_free (path_join (download_path self) fname).

(** [tb] is what a load statement makes of the file [fname]. *)
Definition is_table_of (w : duck) (self : BikeStoreDb) (fname : string)
  (tb : table) : Prop :=
  tbl_name tb = fst (splitext fname)
  /\ csvs w !! path_join (download_path self) fname
     = Some (tbl_columns tb, tbl_rows tb).

(** In [w] the file [fname] can be read and its table exists. *)
Definition loaded (self : BikeStoreDb) (w : duck) (fname : string) : Prop :=
  is_Some (csvs w !! path_join (download_path self) fname)
  /\ find_table (fst (splitext fname)) (default [] (dbs w !! db_path self))
     <> None.

(** From [w] to [w'] every table of every database file is kept as it is,
    in its place; tables may have been added after it. *)
Definition keeps_tables (w w' : duck) : Prop :=
  forall (file : string) (db : database),
    dbs w !! file = Some db ->
    exists added, dbs w' !! file = Some (db ++ added).

(** The entry of the schema dict for a table. *)
Definition schema_entry (tb : table) : string * list column :=
  (tbl_name tb, tbl_columns tb).

(** *** Sample values *)

Definition sample_reserved (t : string) : bool :=
  existsb (String.eqb (str_lower t))
    ["select"; "from"; "where"; "table"; "order"; "group"; "create"].

Definition store : BikeStoreDb := {|
  db_path := "bike_store.db";
  download_path := "/data"
|}.

Definition products_columns : list column :=
  [Column "product_id" "INTEGER"; Column "product_name" "VARCHAR"].

(** The dataset directory with one CSV file and one other file, beside the
    database files [files]. *)
Definition dataset (files : gmap string database) : duck := {|
  dirs := {[ "/data" := ["products.csv"; "README.md"] ]};
  csvs := {[ "/data/products.csv"
             := (products_columns, [["1"; "Trek 820"]; ["2"; "Ritchey"]]) ]};
  dbs := files;
  conns := ∅;
  next_con := 0;
  stdout := []
|}.

Definition no_database : duck := dataset ∅.

Definition empty_database : duck := dataset {[ "bike_store.db" := [] ]}.

(** A database that already has a table [products], of another shape. *)
Definition stale_table : table := {|
  tbl_name := "products";
  tbl_columns := [Column "sku" "VARCHAR"];
  tbl_rows := [["T-820"]]
|}.

Definition stale_database : duck :=
  dataset {[ "bike_store.db" := [stale_table] ]}.

(** A database with a table whose name is two words. *)
Definition spaced_database : duck :=
  dataset {[ "bike_store.db"
             := [ {| tbl_name := "order items";
                     tbl_columns := [Column "order_id" "INTEGER"];
                     tbl_rows := [] |} ] ]}.

(** A dataset with two files that differ in letter case only. *)
Definition twin_dataset : duck := {|
  dirs := {[ "/data" := ["products.csv"; "Products.CSV"] ]};
  csvs := {[ "/data/products.csv" := (products_columns, [["1"; "Trek 820"]]);
             "/data/Products.CSV" := ([Column "sku" "VARCHAR"], [["T-820"]]) ]};
  dbs := ∅;
  conns := ∅;
  next_con := 0;
  stdout := []
|}.

(** A dataset with a file whose name is no identifier. *)
Definition hyphen_dataset : duck := {|
  dirs := {[ "/data" := ["order-items.csv"; "products.csv"] ]};
  csvs := {[ "/data/order-items.csv" := ([Column "order_id" "INTEGER"], []);
             "/data/products.csv" := (products_columns, [["1"; "Trek 820"]]) ]};
  dbs := ∅;
  conns := ∅;
  next_con := 0;
  stdout := []
|}.

End BikeStore.

(** ** The constructors of the two classes, and what they call *)

Module Startup.
Import BikeStore.

(** [os.getenv(key, default)], the process environment being a map. *)
Definition getenv (environ : gmap string string) (key dflt : string) : string :=
  default dflt (environ !! key).

(** [get_ollama_client()]; the [ollama] package is taken to be installed. *)
Definition get_ollama_client (environ : gmap string string)
  : Agent.ollama_client :=
  let host := getenv environ "OLLAMA_HOST" "http://localhost:11434" in
  {| Agent.host := host |}.

Definition get_model_name (environ : gmap string string) : string :=
  getenv environ "OLLAMA_MODEL" "llama3.2".

Section Constructors.

Context {W : Type} (P : platform W).

(** [kagglehub.dataset_download(handle)], which returns a directory. *)
Variable dataset_download : string -> M W string.

(** [QueryWriter.__init__(db_path)] *)
Definition QueryWriter__init__ (environ : gmap string string)
  (db_path : string) : M W Agent.QueryWriter :=
  schema <- get_schema_info P db_path ;;
  ret {| Agent.db_path := db_path;
         Agent.schema := schema;
         Agent.client := get_ollama_client environ;
         Agent.model := get_model_name environ |}.

Definition _download_data : M W string :=
  path <- dataset_download "dillonmyrick/bike-store-sample-database" ;;
  (lift (print P ("Downloaded dataset to " +:+ path)) ;;;
   ret path).

(** [BikeStoreDb.__init__(db_path)] *)
Definition BikeStoreDb__init__ (db_path : string) : M W BikeStoreDb :=
  download_path <- _download_data ;;
  let self := {| db_path := db_path; download_path := download_path |} in
  (_create_db P self ;;;
   ret self).

End Constructors.

(** A download that finds the dataset in the directory [path]. *)
Definition downloaded {W} (path : string) : string -> M W string :=
  fun _ w => (Return path, w).

(** A download that fails. *)
Definition download_fails {W} (e : exn) : string -> M W string :=
  fun _ w => (Raise e, w).

(** The same download under a platform that records its calls. *)
Definition traced_download {W} (download : string -> M W string)
  : string -> M (W * list event) string :=
  fun name '(w, tr) => let '(r, w') := download name w in (r, (w', tr)).

(** The statement that [_create_db] sends for the entry [fname]. *)
Definition load_statement (self : BikeStoreDb) (con : handle) (fname : string)
  : event :=
  EvExecute con
    (create_sql (fst (splitext fname)) (path_join (download_path self) fname)).

(** The number of occurrences of a character in a text. *)
Fixpoint count_char (c : ascii) (s : string) : nat :=
  match s with
  | EmptyString => 0
  | String a s' => (if Ascii.eqb a c then 1 else 0) + count_char c s'
  end.

(** No name or type of the catalog holds a line feed. *)
Definition single_line (s : string) : bool :=
  str_forall (fun c => negb (Ascii.eqb c (ascii_of_nat 10))) s.

Definition catalog_single_line (catalog : schema_dict) : bool :=
  forallb
    (fun entry =>
       single_line (fst entry)
       && forallb (fun col => single_line (col_name col)
                              && single_line (col_type col))
            (snd entry))
    catalog.

(** From [w] to [w'] nothing has changed but, possibly, the database file
    that the connection [con] is open on. *)
Definition only_database_of (con : handle) (w w' : duck) : Prop :=
  dirs w' = dirs w /\ csvs w' = csvs w /\ conns w' = conns w
  /\ next_con w' = next_con w /\ stdout w' = stdout w
  /\ forall file,
       (forall read_only, conns w !! con <> Some (file, read_only)) ->
       dbs w' !! file = dbs w !! file.

(** A call that reads only: a read-only connection to [file], the listing
    of the tables, the description of one, or a close. *)
Definition reading_call (file : string) (ev : event) : Prop :=
  match ev with
  | EvConnect database read_only _ => database = file /\ read_only = true
  | EvExecute _ sql =>
      sql = "SHOW TABLES" \/ exists table_name, sql = "DESCRIBE " +:+ table_name
  | EvClose _ => True
  end.

(** A dataset whose second file cannot be read. *)
Definition broken_dataset : duck := {|
  dirs := {[ "/data" := ["products.csv"; "orders.csv"; "stores.csv"] ]};
  csvs := {[ "/data/products.csv" := (products_columns, [["1"; "Trek 820"]]);
             "/data/stores.csv" := ([Column "store_id" "INTEGER"], [["1"]]) ]};
  dbs := ∅;
  conns := ∅;
  next_con := 0;
  stdout := []
|}.

End Startup.

(** * Properties of [agent.py] *)

Module AgentFacts.
Import Agent.

(** The loop of [_format_schema] appends the line of each table in turn. *)
Lemma schema_parts_loop (catalog : schema_dict) (schema_parts : list string) :
  fold_left
    (fun schema_parts '(table_name, columns) =>
       let cols :=
         str_join ", "
           (map (fun col => col_name col +:+ " (" +:+ col_type col +:+ ")")
                columns) in
       schema_parts ++ ["Table " +:+ table_name +:+ ": " +:+ cols])
    catalog schema_parts
  = schema_parts ++ map table_line catalog.
Proof.
  revert schema_parts.
  induction catalog as [|[table_name columns] catalog IH];
    intros schema_parts; simpl.
  - now rewrite app_nil_r.
  - rewrite IH, <- app_assoc. reflexivity.
Qed.

(** C2: [generate_query] is a stub: whatever the prompt, it raises
    NotImplementedError, returns no value and sends the backend nothing. *)
Theorem C2_generate_query_is_a_stub :
  forall (self : QueryWriter) (prompt : string) (b : backend),
    generate_query self prompt b
    = (Raise (NotImplementedError "Implement the generate_query method!"), b).
Proof. reflexivity. Qed.

(** C1, as the specification states it, fails: on a non-empty question and
    a non-empty catalog [generate_query] returns no query, and the error
    it raises is none of those the specification declares. *)
Lemma C1_counterexample :
  "How many products are there?" <> ""
  /\ schema local_writer <> []
  /\ ~ match fst (generate_query local_writer "How many products are there?"
                    [])
       with
       | Return sql => begins_with_query_keyword sql = true /\ sql <> ""
       | Raise e => In (exn_class e) declared_errors
       end.
Proof.
  split; [discriminate|]. split; [discriminate|].
  simpl. intros H. repeat (destruct H as [H|H]; [discriminate H|]).
  exact H.
Qed.

(** C1, amended: for a non-empty question and a non-empty catalog,
    [generate_query] either returns a text that begins with a query keyword
    or raises an error, which is NotImplementedError; it does not return the
    empty text. *)
Theorem C1_generate_query_returns_a_query_or_raises :
  forall (self : QueryWriter) (prompt : string) (b : backend),
    prompt <> "" ->
    schema self <> [] ->
    match fst (generate_query self prompt b) with
    | Return sql => begins_with_query_keyword sql = true /\ sql <> ""
    | Raise e => exn_class e = "NotImplementedError"
    end.
Proof.
  intros self prompt b _ _. unfold generate_query, raise. reflexivity.
Qed.

Lemma C1_witness :
  "How many products are there?" <> ""
  /\ schema local_writer <> []
  /\ match fst (generate_query local_writer "How many products are there?" [])
     with
     | Return sql => begins_with_query_keyword sql = true /\ sql <> ""
     | Raise e => exn_class e = "NotImplementedError"
     end.
Proof.
  split; [discriminate|]. split; [discriminate|].
  apply (C1_generate_query_returns_a_query_or_raises local_writer);
    discriminate.
Defined.

(** C3, as the specification states it, fails: on the empty question the
    error raised is not EmptyQuestion. *)
Lemma C3_counterexample :
  ~ exists msg,
      fst (generate_query local_writer "" []) = Raise (Exn "EmptyQuestion" msg).
Proof. intros [msg H]. discriminate H. Qed.

(** C3, amended: on the empty question [generate_query] fails at once with
    NotImplementedError, the error it raises for every prompt, and the
    backend has received no request when it fails. *)
Theorem C3_empty_question_fails_before_any_request :
  forall (self : QueryWriter) (b : backend),
    generate_query self "" b
    = (Raise (NotImplementedError "Implement the generate_query method!"), b).
Proof. reflexivity. Qed.

(** C4: the text [_format_schema] returns is fixed by the catalog alone:
    two calls on the same catalog give the same text, byte for byte,
    whatever the other attributes of the object are. *)
Theorem C4_format_schema_deterministic :
  forall self1 self2 : QueryWriter,
    schema self1 = schema self2 ->
    _format_schema self1 = _format_schema self2.
Proof. intros self1 self2 H. unfold _format_schema. now rewrite H. Qed.

Lemma C4_witness :
  schema local_writer = schema remote_writer
  /\ _format_schema local_writer = _format_schema remote_writer.
Proof.
  split; [reflexivity|].
  apply (C4_format_schema_deterministic local_writer remote_writer).
  reflexivity.
Defined.

(** C5: [_format_schema] emits one line per table, in the order of the
    catalog; a line names the table and lists its columns as name (type)
    pairs separated by commas, in the order the table has them. *)
Theorem C5_format_schema_lines :
  forall self : QueryWriter,
    _format_schema self = format_spec (schema self).
Proof.
  intros self. unfold _format_schema, format_spec.
  now rewrite schema_parts_loop.
Qed.

Example format_sample_schema :
  _format_schema local_writer
  = "Table products: product_id (INTEGER), product_name (VARCHAR)" +:+ LF
    +:+ "Table brands: brand_id (INTEGER), brand_name (VARCHAR)".
Proof. reflexivity. Qed.

Example format_empty_schema :
  _format_schema {| db_path := "bike_store.db"; schema := [];
                    client := {| host := "http://localhost:11434" |};
                    model := "llama3.2" |}
  = "".
Proof. reflexivity. Qed.

End AgentFacts.

(** * Properties of [db/bike_store.py] *)

Module BikeStoreFacts.
Import BikeStore.

#[local] Arguments String.append !s1 s2 : simpl nomatch.

Section Monad.
Context {W : Type}.

Lemma bind_Return {A B} (c : M W A) (k : A -> M W B) w a w' :
  c w = (Return a, w') -> bind c k w = k a w'.
Proof. intros H. unfold bind. now rewrite H. Qed.

Lemma bind_Raise {A B} (c : M W A) (k : A -> M W B) w e w' :
  c w = (Raise e, w') -> bind c k w = (Raise e, w').
Proof. intros H. unfold bind. now rewrite H. Qed.

(** Reading cells of a row touches nothing outside the process. *)
Lemma column_dict_state (col : row) (w : W) : snd (column_dict col w) = w.
Proof.
  unfold column_dict, bind, index.
  destruct (nth_error col 0); [|reflexivity].
  now destruct (nth_error col 1).
Qed.

Lemma comprehension_column_dict_state (columns : list row) (w : W) :
  snd (comprehension column_dict columns w) = w.
Proof.
  induction columns as [|col columns IH]; [reflexivity|].
  simpl. unfold bind at 1.
  pose proof (column_dict_state col w) as Hc.
  destruct (column_dict col w) as [[c|e] w1]; simpl in Hc; subst w1;
    [|reflexivity].
  unfold bind at 1.
  destruct (comprehension column_dict columns w) as [[cs|e] w2];
    simpl in IH; now subst w2.
Qed.

Lemma unpack1_state (tup : row) (w : W) : snd (unpack1 tup w) = w.
Proof. unfold unpack1. destruct tup as [|x [|y tup]]; reflexivity. Qed.

End Monad.

Section AnyPlatform.
Context {W : Type} (P : platform W).

Lemma describe_table_trace con tup acc w tr :
  exists calls,
    snd (snd (describe_table (traced P) con tup acc (w, tr))) = tr ++ calls
    /\ executes_on con calls.
Proof.
  unfold describe_table, bind at 1.
  pose proof (unpack1_state tup (w, tr)) as Hu.
  destruct (unpack1 tup (w, tr)) as [[table_name|e] s]; simpl in Hu; subst s.
  2:{ exists []. split; [now rewrite app_nil_r | constructor]. }
  unfold bind at 1. cbn [execute traced].
  destruct (execute P con ("DESCRIBE " +:+ table_name) w) as [[columns|e] w1].
  2:{ eexists. split; [reflexivity|]. repeat constructor. eauto. }
  unfold bind at 1.
  match goal with |- context [comprehension column_dict columns ?s] =>
    pose proof (comprehension_column_dict_state columns s) as Hc;
    destruct (comprehension column_dict columns s) as [[cols|e] s1]
  end; simpl in Hc; subst s1;
    (eexists; split; [reflexivity|]; repeat constructor; eauto).
Qed.

Lemma describe_loop_trace con tables acc w tr :
  exists calls,
    snd (snd (for_each tables (describe_table (traced P) con) acc (w, tr)))
    = tr ++ calls
    /\ executes_on con calls.
Proof.
  revert acc w tr. induction tables as [|tup tables IH]; intros acc w tr.
  - exists []. split; [now rewrite app_nil_r | constructor].
  - simpl. unfold bind at 1.
    destruct (describe_table_trace con tup acc w tr) as (calls1 & H1 & F1).
    destruct (describe_table (traced P) con tup acc (w, tr))
      as [[acc'|e] [w1 tr1]]; simpl in H1; subst tr1.
    + destruct (IH acc' w1 (tr ++ calls1)) as (calls2 & H2 & F2).
      exists (calls1 ++ calls2). split.
      * now rewrite H2, app_assoc.
      * now apply Forall_app.
    + now exists calls1.
Qed.

(** C6, amended: on a database with no table [get_schema_info] returns the
    empty mapping, after closing the connection; when [duckdb.connect]
    raises, that exception leaves [get_schema_info] as it is. *)
Theorem C6_no_tables_and_failed_open :
  forall (db_path : string) (w : W),
    (forall con w1 w2,
        connect P db_path true w = (Return con, w1) ->
        execute P con "SHOW TABLES" w1 = (Return [], w2) ->
        get_schema_info P db_path w = (Return [], close P con w2))
    /\ (forall e w1,
          connect P db_path true w = (Raise e, w1) ->
          get_schema_info P db_path w = (Raise e, w1)).
Proof.
  intros db_path w. split.
  - intros con w1 w2 Hc Hs. unfold get_schema_info.
    rewrite (bind_Return _ _ _ _ _ Hc), (bind_Return _ _ _ _ _ Hs).
    reflexivity.
  - intros e w1 Hc. unfold get_schema_info.
    now rewrite (bind_Raise _ _ _ _ _ Hc).
Qed.

(** C7, amended: [get_schema_info] closes the connection it opened as its
    last action when every listing call has succeeded; when it raises, it
    has closed no connection: either none was opened, or the one it opened
    is left open after the calls made on it. *)
Theorem C7_connection_closed_on_return_only :
  forall (db_path : string) (w : W),
    let '(r, (_, tr)) := get_schema_info (traced P) db_path (w, []) in
    match r with
    | Return _ =>
        exists con calls,
          tr = EvConnect db_path true con :: calls ++ [EvClose con]
          /\ executes_on con calls
    | Raise _ =>
        (forall con, ~ In (EvClose con) tr)
        /\ (tr = []
            \/ exists con calls,
                 tr = EvConnect db_path true con :: calls
                 /\ executes_on con calls)
    end.
Proof.
  intros db_path w. unfold get_schema_info, bind at 1. cbn [connect traced].
  destruct (connect P db_path true w) as [[con|e] w1].
  2:{ split; [intros con [] | now left]. }
  unfold bind at 1. cbn [execute traced app].
  destruct (execute P con "SHOW TABLES" w1) as [[tables|e] w2].
  2:{ split.
      - intros con' [H|[H|[]]]; discriminate H.
      - right. exists con. eexists. split; [reflexivity|].
        repeat constructor. eauto. }
  unfold bind at 1.
  match goal with |- context [for_each tables ?f ?a (w2, ?t)] =>
    destruct (describe_loop_trace con tables a w2 t) as (calls & Ht & Hf);
    destruct (for_each tables f a (w2, t)) as [[schema_info|e] [w3 tr3]]
  end; simpl in Ht; subst tr3.
  - exists con, (EvExecute con "SHOW TABLES" :: calls). split.
    + cbn. now rewrite <- ?app_assoc.
    + constructor; eauto.
  - split.
    + intros con' [H|[H|H]]; try discriminate H.
      unfold executes_on in Hf. rewrite List.Forall_forall in Hf.
      destruct (Hf _ H) as [sql Hsql]. discriminate Hsql.
    + right. exists con. eexists. split; [reflexivity|].
      constructor; eauto.
Qed.

End AnyPlatform.

(** C6, as the specification states it, fails: when the database file
    cannot be opened the error is DuckDB's own, not CatalogUnavailable. *)
Lemma C6_counterexample :
  ~ exists msg,
      fst (get_schema_info (duckdb sample_reserved) "bike_store.db" no_database)
      = Raise (Exn "CatalogUnavailable" msg).
Proof. intros [msg H]. vm_compute in H. discriminate H. Qed.

Lemma C6_witness :
  get_schema_info (duckdb sample_reserved) "bike_store.db" empty_database
  = (Return [],
     close (duckdb sample_reserved) 0
       (snd (connect (duckdb sample_reserved) "bike_store.db" true
                     empty_database)))
  /\ get_schema_info (duckdb sample_reserved) "bike_store.db" no_database
     = (Raise (Exn "IOException"
                   "Cannot open database in read-only mode: database does not exist"),
        no_database).
Proof.
  split.
  - apply (proj1 (C6_no_tables_and_failed_open (duckdb sample_reserved)
                    "bike_store.db" empty_database)
             0 (snd (connect (duckdb sample_reserved) "bike_store.db" true
                             empty_database)));
      reflexivity.
  - apply (proj2 (C6_no_tables_and_failed_open (duckdb sample_reserved)
                    "bike_store.db" no_database));
      reflexivity.
Defined.

(** C7, as the specification states it, fails: when describing a table
    raises, the connection that was opened is never closed. *)
Lemma C7_counterexample :
  let '(r, (w', tr)) :=
    get_schema_info (traced (duckdb sample_reserved)) "bike_store.db"
      (spaced_database, []) in
  r = Raise ParserException
  /\ tr = [EvConnect "bike_store.db" true 0; EvExecute 0 "SHOW TABLES";
           EvExecute 0 "DESCRIBE order items"]
  /\ conns w' !! 0 = Some ("bike_store.db", true).
Proof. vm_compute. repeat split. Qed.

(** *** Strings *)

Lemma str_forall_app (f : ascii -> bool) (a b : string) :
  str_forall f (a +:+ b) = str_forall f a && str_forall f b.
Proof.
  induction a as [|c a IH]; simpl; [reflexivity|].
  now rewrite IH, andb_assoc.
Qed.

Lemma str_lower_app (a b : string) :
  str_lower (a +:+ b) = str_lower a +:+ str_lower b.
Proof. induction a as [|c a IH]; simpl; congruence. Qed.

Lemma strip_prefix_app (pre s : string) : strip_prefix pre (pre +:+ s) = Some s.
Proof.
  induction pre as [|c pre IH]; simpl; [reflexivity|].
  now rewrite Ascii.eqb_refl.
Qed.

(** [span] stops at the first character that fails the test. *)
Lemma span_app (f : ascii -> bool) (a : string) (c : ascii) (b : string) :
  str_forall f a = true -> f c = false ->
  span f (a +:+ String c b) = (a, String c b).
Proof.
  intros Ha Hc. induction a as [|x a IH]; simpl in *.
  - now rewrite Hc.
  - apply andb_true_iff in Ha as [Hx Ha]. now rewrite Hx, (IH Ha).
Qed.

Lemma str_endswith_app (s suffix : string) :
  str_endswith s suffix = true <-> exists pre, s = pre +:+ suffix.
Proof.
  split.
  - induction s as [|c s IH]; cbn [str_endswith]; intros H.
    + apply orb_true_iff in H as [H|H]; [|discriminate].
      apply String.eqb_eq in H. subst. now exists "".
    + apply orb_true_iff in H as [H|H].
      * apply String.eqb_eq in H. subst. now exists "".
      * destruct (IH H) as [pre ->]. now exists (String c pre).
  - intros [pre ->]. induction pre as [|c pre IH].
    + change ("" +:+ suffix) with suffix.
      destruct suffix; cbn [str_endswith]; now rewrite String.eqb_refl.
    + change (String c pre +:+ suffix) with (String c (pre +:+ suffix)).
      cbn [str_endswith]. rewrite IH. apply orb_true_r.
Qed.

(** Splitting at the last occurrence of a character is unique. *)
Lemma last_occurrence_unique (c : ascii) (a1 b1 a2 b2 : string) :
  a1 +:+ String c b1 = a2 +:+ String c b2 ->
  str_forall (fun x => negb (Ascii.eqb x c)) b1 = true ->
  str_forall (fun x => negb (Ascii.eqb x c)) b2 = true ->
  a1 = a2 /\ b1 = b2.
Proof.
  intros H H1 H2. revert a2 H.
  induction a1 as [|x a1 IH]; intros [|y a2] H; simpl in H.
  - now inversion H.
  - inversion H; subst. rewrite str_forall_app in H1. simpl in H1.
    rewrite Ascii.eqb_refl in H1. simpl in H1.
    now rewrite andb_false_r in H1.
  - inversion H; subst. rewrite str_forall_app in H2. simpl in H2.
    rewrite Ascii.eqb_refl in H2. simpl in H2.
    now rewrite andb_false_r in H2.
  - inversion H; subst. destruct (IH a2) as [-> ->]; auto.
Qed.

(** [rfind] splits the text at the last occurrence, when there is one. *)
Lemma rfind_none (c : ascii) (p : string) :
  (rfind c p < 0)%Z ->
  str_forall (fun x => negb (Ascii.eqb x c)) p = true.
Proof.
  induction p as [|a p IH]; simpl; [reflexivity|].
  destruct (0 <=? rfind c p)%Z eqn:E.
  - apply Z.leb_le in E. lia.
  - apply Z.leb_gt in E. destruct (Ascii.eqb a c); [lia|].
    intros _. now rewrite (IH E).
Qed.

Lemma rfind_bounds (c : ascii) (p : string) : (-1 <= rfind c p)%Z.
Proof.
  induction p as [|a p IH]; simpl; [lia|].
  destruct (0 <=? rfind c p)%Z eqn:E; [lia|].
  destruct (Ascii.eqb a c); lia.
Qed.

Lemma rfind_some (c : ascii) (p : string) :
  (0 <= rfind c p)%Z ->
  exists a b,
    p = a +:+ String c b
    /\ String.length a = Z.to_nat (rfind c p)
    /\ str_forall (fun x => negb (Ascii.eqb x c)) b = true.
Proof.
  induction p as [|x p IH]; simpl; [lia|].
  destruct (0 <=? rfind c p)%Z eqn:E.
  - apply Z.leb_le in E. intros _.
    destruct (IH E) as (a & b & -> & Hl & Hb).
    exists (String x a), b. repeat split; auto. simpl. lia.
  - apply Z.leb_gt in E. destruct (Ascii.eqb x c) eqn:Ex; [|lia].
    intros _. apply Ascii.eqb_eq in Ex. subst x.
    exists "", p. repeat split. now apply rfind_none.
Qed.

Lemma substring_prefix (a b : string) :
  String.substring 0 (String.length a) (a +:+ b) = a.
Proof.
  induction a as [|x a IH]; simpl.
  - now destruct b.
  - now rewrite IH.
Qed.

Lemma substring_suffix (a b : string) :
  String.substring (String.length a) (String.length b) (a +:+ b) = b.
Proof.
  induction a as [|x a IH]; simpl; [|exact IH].
  induction b as [|y b IHb]; simpl; [reflexivity|]. now rewrite IHb.
Qed.

Lemma length_app (a b : string) :
  String.length (a +:+ b) = String.length a + String.length b.
Proof. induction a as [|x a IH]; simpl; congruence. Qed.

(** [splitext] either keeps the whole name, or cuts it at its last dot. *)
Lemma splitext_cases (p : string) :
  splitext p = (p, "")
  \/ exists stem rest,
       splitext p = (stem, String "." rest)
       /\ p = stem +:+ String "." rest
       /\ str_forall (fun x => negb (Ascii.eqb x ".")) rest = true.
Proof.
  unfold splitext.
  destruct ((rfind "/" p <? rfind "." p)%Z
            && splitext_loop p (rfind "." p) (rfind "/" p + 1)
                 (String.length p)) eqn:E; [|now left].
  right. apply andb_true_iff in E as [E _]. apply Z.ltb_lt in E.
  pose proof (rfind_bounds "/" p) as Hs.
  destruct (rfind_some "." p) as (a & b & Hp & Hl & Hb); [lia|].
  exists a, (b). split; [|auto].
  unfold slice, slice_from. rewrite Z.sub_0_r, <- Hl. simpl Z.to_nat.
  rewrite Hp at 1 2 3.
  rewrite substring_prefix. f_equal.
  rewrite length_app. replace (String.length a + String.length (String "." b) - String.length a) with (String.length (String "." b)) by lia.
  apply substring_suffix.
Qed.

Lemma lower_char_dot (x : ascii) :
  Ascii.eqb (lower_char x) "." = Ascii.eqb x ".".
Proof.
  unfold lower_char.
  destruct ((65 <=? nat_of_ascii x)%nat && (nat_of_ascii x <=? 90)%nat)
    eqn:E; [|reflexivity].
  apply andb_true_iff in E as [E1 E2].
  apply Nat.leb_le in E1. apply Nat.leb_le in E2.
  transitivity false.
  - apply Ascii.eqb_neq. intros H.
    apply (f_equal nat_of_ascii) in H.
    rewrite nat_ascii_embedding in H by lia.
    change (nat_of_ascii ".") with 46 in H. lia.
  - symmetry. apply Ascii.eqb_neq. intros ->.
    change (nat_of_ascii ".") with 46 in E1. lia.
Qed.

Lemma str_lower_dot_free (s : string) :
  str_forall (fun x => negb (Ascii.eqb x ".")) (str_lower s)
  = str_forall (fun x => negb (Ascii.eqb x ".")) s.
Proof.
  induction s as [|c s IH]; simpl; [reflexivity|].
  now rewrite lower_char_dot, IH.
Qed.

(** A name that ends in .csv, whatever the case, and whose [splitext] stem
    is made of identifier characters, is that stem followed by an extension
    that lowers to .csv. *)
Lemma splitext_csv (fname : string) :
  is_csv fname = true ->
  str_forall ident_char (fst (splitext fname)) = true ->
  exists ext,
    fname = fst (splitext fname) +:+ ext /\ str_lower ext = ".csv".
Proof.
  intros Hcsv Hid. unfold is_csv in Hcsv.
  apply str_endswith_app in Hcsv as [pre Hpre].
  destruct (splitext_cases fname) as [E|(stem & rest & E & Hp & Hrest)];
    rewrite E in *; simpl in *.
  - exfalso.
    assert (H : str_forall ident_char (str_lower fname) = false).
    { rewrite Hpre, str_forall_app. simpl. apply andb_false_r. }
    assert (L : forall s, str_forall ident_char s = true ->
                          str_forall ident_char (str_lower s) = true).
    { induction s as [|c s IH]; simpl; [reflexivity|].
      intros Hc. apply andb_true_iff in Hc as [Hc Hs].
      rewrite (IH Hs), andb_true_r.
      unfold lower_char.
      destruct ((65 <=? nat_of_ascii c)%nat && (nat_of_ascii c <=? 90)%nat)
        eqn:Ec; [|exact Hc].
      apply andb_true_iff in Ec as [E1 E2].
      apply Nat.leb_le in E1. apply Nat.leb_le in E2.
      unfold ident_char, digit_char.
      rewrite nat_ascii_embedding by lia.
      apply orb_true_iff. left. apply orb_true_iff. left.
      apply orb_true_iff. right.
      apply andb_true_iff. split; apply Nat.leb_le; lia. }
    rewrite (L _ Hid) in H. discriminate H.
  - exists (String "." rest). split; [exact Hp|].
    rewrite Hp, str_lower_app in Hpre. simpl in Hpre.
    change (lower_char ".") with "."%char in Hpre.
    destruct (last_occurrence_unique "." (str_lower stem) (str_lower rest)
                pre "csv") as [_ Hr]; auto.
    + now rewrite str_lower_dot_free.
    + simpl. change (lower_char ".") with "."%char. now rewrite Hr.
Qed.

Example splitext_samples :
  splitext "products.csv" = ("products", ".csv")
  /\ splitext "Order_Items.CSV" = ("Order_Items", ".CSV")
  /\ splitext "archive.2016.csv" = ("archive.2016", ".csv")
  /\ splitext ".csv" = (".csv", "")
  /\ splitext "README" = ("README", "").
Proof. repeat split. Qed.

Example path_join_samples :
  path_join "/data" "products.csv" = "/data/products.csv"
  /\ path_join "/data/" "products.csv" = "/data/products.csv"
  /\ path_join "" "products.csv" = "products.csv".
Proof. repeat split. Qed.

Lemma parse_show_tables : parse "SHOW TABLES" = ShowTables.
Proof. reflexivity. Qed.

Lemma parse_describe (t : string) : parse ("DESCRIBE " +:+ t) = Describe t.
Proof. reflexivity. Qed.

Lemma parse_create (t fpath : string) :
  str_forall ident_char t = true ->
  quote_free fpath = true ->
  parse (create_sql t fpath) = CreateTableAs t fpath.
Proof.
  intros Ht Hp.
  change (create_sql t fpath)
    with (create_head +:+ (t +:+ (create_middle +:+ (fpath +:+ create_tail)))).
  unfold parse.
  change (String.eqb (create_head +:+ _) "SHOW TABLES") with false.
  change (strip_prefix "DESCRIBE " (create_head +:+ _)) with (@None string).
  cbv iota. rewrite strip_prefix_app.
  change (create_middle +:+ (fpath +:+ create_tail))
    with (String " " (String.substring 1 100 create_middle
                      +:+ (fpath +:+ create_tail))).
  rewrite (span_app ident_char t) by (auto; reflexivity).
  change (String " " (String.substring 1 100 create_middle
                      +:+ (fpath +:+ create_tail)))
    with (create_middle +:+ (fpath +:+ create_tail)).
  rewrite strip_prefix_app.
  change create_tail with (String "'" (String.substring 1 100 create_tail)).
  rewrite (span_app _ fpath) by (auto; reflexivity).
  reflexivity.
Qed.


(** *** The reference engine *)

Section EngineFacts.

Variable reserved : string -> bool.

Lemma bare_ident_chars (t : string) :
  bare_ident reserved t = true -> str_forall ident_char t = true.
Proof.
  unfold bare_ident. intros H.
  apply andb_true_iff in H as [H _]. now apply andb_true_iff in H as [_ H].
Qed.

Lemma find_table_absent (t : string) (db : database) :
  ~ In (str_lower t) (map str_lower (map tbl_name db)) ->
  find_table t db = None.
Proof.
  unfold find_table. induction db as [|tb db IH]; simpl; intros H.
  - reflexivity.
  - unfold ident_eqb at 1.
    destruct (String.eqb (str_lower (tbl_name tb)) (str_lower t)) eqn:E.
    + apply String.eqb_eq in E. exfalso. apply H. now left.
    + apply IH. intros Hin. apply H. now right.
Qed.

Lemma find_table_present (tb : table) (db : database) :
  List.NoDup (map str_lower (map tbl_name db)) ->
  In tb db ->
  find_table (tbl_name tb) db = Some tb.
Proof.
  unfold find_table. induction db as [|tb' db IH]; simpl; intros Hnd Hin.
  - destruct Hin.
  - inversion Hnd as [|x l Hx Hnd']; subst.
    unfold ident_eqb at 1.
    destruct Hin as [->|Hin].
    + now rewrite String.eqb_refl.
    + destruct (String.eqb (str_lower (tbl_name tb')) (str_lower (tbl_name tb)))
        eqn:E.
      * apply String.eqb_eq in E. exfalso. apply Hx. rewrite E.
        apply in_map, in_map. exact Hin.
      * now apply IH.
Qed.

Lemma set_dbs_same (w : duck) : set_dbs (dbs w) w = w.
Proof. now destruct w. Qed.

(** A load statement within the model, for a table that does not exist yet,
    appends the table that read_csv_auto detects. *)
Lemma execute_create (con : handle) (w : duck) (file t fpath : string)
  (db : database) (columns : list column) (rows : list row) :
  conns w !! con = Some (file, false) ->
  dbs w !! file = Some db ->
  bare_ident reserved t = true ->
  quote_free fpath = true ->
  csvs w !! fpath = Some (columns, rows) ->
  find_table t db = None ->
  duck_execute reserved con (create_sql t fpath) w
  = (Return [],
     set_dbs (<[file := db ++ [ {| tbl_name := t; tbl_columns := columns;
                                       tbl_rows := rows |} ]]> (dbs w)) w).
Proof.
  intros Hcon Hdb Hbare Hq Hcsv Hfind. unfold duck_execute.
  rewrite Hcon, Hdb, (parse_create t fpath) by auto using bare_ident_chars.
  rewrite Hbare. simpl. rewrite Hcsv, Hfind. reflexivity.
Qed.

Lemma load_loop (self : BikeStoreDb) (con : handle) (entries : list string) :
  forall (w : duck) (db : database) (count : nat),
    conns w !! con = Some (db_path self, false) ->
    dbs w !! db_path self = Some db ->
    forallb (sendable reserved self) (List.filter is_csv entries) = true ->
    List.Forall
      (fun fname => is_Some (csvs w !! path_join (download_path self) fname))
      (List.filter is_csv entries) ->
    List.NoDup
      (map str_lower
         (map tbl_name db
          ++ map (fun fname => fst (splitext fname))
               (List.filter is_csv entries))) ->
    exists created,
      for_each entries (load_file (duckdb reserved) self con) count w
      = (Return (count + length (List.filter is_csv entries)),
         set_dbs (<[db_path self := db ++ created]> (dbs w)) w)
      /\ Forall2 (is_table_of w self) (List.filter is_csv entries) created.
Proof.
  induction entries as [|fname entries IH]; intros w db count Hcon Hdb Hs Hr Hnd.
  - exists []. split; [|constructor]. simpl.
    rewrite app_nil_r, insert_id, set_dbs_same, Nat.add_0_r by auto.
    reflexivity.
  - cbn [for_each]. unfold load_file at 1. cbn [List.filter] in *.
    change (str_endswith (str_lower fname) ".csv") with (is_csv fname).
    destruct (is_csv fname) eqn:Ecsv.
    + cbn [forallb map] in Hs, Hnd.
      apply andb_true_iff in Hs as [Hs1 Hs].
      unfold sendable in Hs1. apply andb_true_iff in Hs1 as [Hbare Hq].
      inversion Hr as [|x l [[columns rows] Hcsv] Hr']; subst.
      rewrite map_app in Hnd. cbn [map] in Hnd.
      assert (Hfresh : find_table (fst (splitext fname)) db = None).
      { apply find_table_absent. intros Hin.
        apply NoDup_remove_2 in Hnd. apply Hnd.
        apply in_or_app. now left. }
      set (tb := {| tbl_name := fst (splitext fname); tbl_columns := columns;
                    tbl_rows := rows |}).
      pose proof (execute_create con w _ _ _ db columns rows
                    Hcon Hdb Hbare Hq Hcsv Hfresh) as Hex.
      fold tb in Hex.
      set (w1 := set_dbs (<[db_path self := db ++ [tb]]> (dbs w)) w) in *.
      destruct (IH w1 (db ++ [tb]) (count + 1)) as (created & Hloop & Hall).
      * exact Hcon.
      * unfold w1. simpl. apply lookup_insert_eq.
      * exact Hs.
      * exact Hr'.
      * rewrite !map_app. cbn [map]. rewrite <- app_assoc. exact Hnd.
      * exists (tb :: created). split.
        -- unfold bind at 1. unfold bind at 1. cbn [execute duckdb].
           rewrite Hex. unfold ret at 1. rewrite Hloop.
           f_equal; [f_equal; simpl; lia|].
           unfold w1, set_dbs. simpl.
           now rewrite insert_insert_eq, <- app_assoc.
        -- constructor; [split; [reflexivity | exact Hcsv] | exact Hall].
    + unfold bind at 1, ret at 1. now apply IH.
Qed.


Lemma connect_for_writing (file : string) (w : duck) :
  exists w1,
    duck_connect file false w = (Return (next_con w), w1)
    /\ conns w1 !! next_con w = Some (file, false)
    /\ dbs w1 !! file = Some (default [] (dbs w !! file))
    /\ dirs w1 = dirs w
    /\ csvs w1 = csvs w.
Proof.
  unfold duck_connect. destruct (dbs w !! file) as [db|] eqn:E.
  - eexists. split; [reflexivity|]. cbn [conns dbs dirs csvs set_conns].
    split; [apply lookup_insert_eq|]. split; [exact E|]. now split.
  - eexists. split; [reflexivity|].
    cbn [conns dbs dirs csvs set_conns set_dbs].
    split; [apply lookup_insert_eq|].
    split; [apply lookup_insert_eq|]. now split.
Qed.

Lemma filter_all {A} (f : A -> bool) (l : list A) :
  forallb f (List.filter f l) = true.
Proof.
  induction l as [|x l IH]; simpl; [reflexivity|].
  destruct (f x) eqn:E; simpl; [now rewrite E|exact IH].
Qed.

Lemma tables_loaded (self : BikeStoreDb) (w : duck) (files : list string)
  (created : list table) :
  forallb is_csv files = true ->
  forallb (sendable reserved self) files = true ->
  Forall2 (is_table_of w self) files created ->
  Forall2 (loaded_from w self) files created.
Proof.
  intros Hc Hs H. induction H as [|fname tb files created [Hn Hcsv] H IH].
  - constructor.
  - simpl in Hc, Hs.
    apply andb_true_iff in Hc as [Hc1 Hc], Hs as [Hs1 Hs].
    constructor; [|now apply IH].
    split; [|exact Hcsv]. rewrite Hn. apply splitext_csv; [exact Hc1|].
    unfold sendable in Hs1. apply andb_true_iff in Hs1 as [Hb _].
    now apply bare_ident_chars.
Qed.

Lemma create_db_engine (self : BikeStoreDb) (w : duck) (entries : list string) :
  dirs w !! download_path self = Some entries ->
  forallb (sendable reserved self) (List.filter is_csv entries) = true ->
  List.Forall
    (fun fname => is_Some (csvs w !! path_join (download_path self) fname))
    (List.filter is_csv entries) ->
  List.NoDup
    (map str_lower
       (map tbl_name (default [] (dbs w !! db_path self))
        ++ map (fun fname => fst (splitext fname))
             (List.filter is_csv entries))) ->
  exists w' created,
    _create_db (duckdb reserved) self w = (Return tt, w')
    /\ dbs w' !! db_path self
       = Some (default [] (dbs w !! db_path self) ++ created)
    /\ Forall2 (is_table_of w self) (List.filter is_csv entries) created
    /\ csvs w' = csvs w /\ dirs w' = dirs w.
Proof.
  intros Hdir Hs Hr Hnd. unfold _create_db.
  destruct (connect_for_writing (db_path self) w)
    as (w1 & Hc & Hcon & Hdb & Hdirs & Hcsvs).
  cbn [connect listdir duckdb].
  rewrite (bind_Return _ _ _ _ _ Hc).
  assert (Hl : duck_listdir (download_path self) w1 = (Return entries, w1)).
  { unfold duck_listdir. now rewrite Hdirs, Hdir. }
  rewrite (bind_Return _ _ _ _ _ Hl).
  destruct (load_loop self (next_con w) entries w1 _ 0 Hcon Hdb Hs)
    as (created & Hloop & Hall).
  { now rewrite Hcsvs. }
  { exact Hnd. }
  rewrite (bind_Return _ _ _ _ _ Hloop).
  eexists. exists created. split; [reflexivity|]. simpl.
  split; [apply lookup_insert_eq|].
  split; [|auto].
  unfold is_table_of in *. now rewrite Hcsvs in Hall.
Qed.

(** C8, amended: when every file of the directory whose name ends in .csv,
    whatever the case, gives a statement within the model and can be read,
    and the names of the tables of the database and of these files without
    their extensions all differ, letter case aside, then [_create_db]
    returns and has created exactly one table per such file, named as the
    file without its extension, case kept, with the columns detected in
    the file, and no table for any other file. *)
Theorem C8_one_table_per_csv_file :
  forall (self : BikeStoreDb) (w : duck) (entries : list string),
    dirs w !! download_path self = Some entries ->
    forallb (sendable reserved self) (csv_files entries) = true ->
    List.Forall
      (fun fname => is_Some (csvs w !! path_join (download_path self) fname))
      (csv_files entries) ->
    List.NoDup
      (map str_lower
         (map tbl_name (tables_at w (db_path self))
          ++ map (fun fname => stem fname) (csv_files entries))) ->
    exists w',
      _create_db (duckdb reserved) self w = (Return tt, w')
      /\ one_table_per_csv_file self w w'.
Proof.
  intros self w entries Hdir Hs Hr Hnd.
  destruct (create_db_engine self w entries Hdir Hs Hr Hnd)
    as (w' & created & Hrun & Hdb & Hall & _).
  exists w'. split; [exact Hrun|].
  exists entries, created. repeat split; auto.
  apply tables_loaded; auto using filter_all.
Qed.


Lemma column_dict_describe_row {W} (c : column) (w : W) :
  column_dict (describe_row c) w = (Return c, w).
Proof. now destruct c. Qed.

Lemma comprehension_describe_rows {W} (columns : list column) (w : W) :
  comprehension column_dict (map describe_row columns) w = (Return columns, w).
Proof.
  induction columns as [|c columns IH]; [reflexivity|].
  cbn [map comprehension]. unfold bind at 1.
  rewrite column_dict_describe_row. unfold bind at 1. now rewrite IH.
Qed.

Lemma dict_set_fresh {V} (k : string) (v : V) (d : list (string * V)) :
  ~ In k (map fst d) -> dict_set k v d = d ++ [(k, v)].
Proof.
  induction d as [|[k' v'] d IH]; simpl; intros H; [reflexivity|].
  destruct (String.eqb k' k) eqn:E.
  - apply String.eqb_eq in E. exfalso. apply H. now left.
  - rewrite IH; [reflexivity|]. intros Hin. apply H. now right.
Qed.


Lemma describe_loop_engine (con : handle) (w : duck) (file : string)
  (read_only : bool) (db : database) :
  conns w !! con = Some (file, read_only) ->
  dbs w !! file = Some db ->
  forallb (fun tb => bare_ident reserved (tbl_name tb)) db = true ->
  List.NoDup (map str_lower (map tbl_name db)) ->
  forall rest done,
    db = done ++ rest ->
    for_each (map (fun tb => [tbl_name tb]) rest)
      (describe_table (duckdb reserved) con) (map schema_entry done) w
    = (Return (map schema_entry db), w).
Proof.
  intros Hcon Hdb Hbare Hnd.
  induction rest as [|tb rest IH]; intros done Hdone.
  - rewrite app_nil_r in Hdone. now subst.
  - cbn [map for_each]. unfold bind at 1, describe_table at 1.
    unfold bind at 1, unpack1 at 1, ret at 1.
    unfold bind at 1. cbn [execute duckdb]. unfold duck_execute at 1.
    rewrite Hcon, Hdb, parse_describe.
    assert (Hin : In tb db) by (subst db; apply in_or_app; right; now left).
    rewrite forallb_forall in Hbare. rewrite (Hbare _ Hin).
    cbn [default]. change (id db) with db.
    rewrite (find_table_present tb db Hnd Hin).
    unfold bind at 1. rewrite comprehension_describe_rows.
    unfold ret at 1. rewrite dict_set_fresh.
    + change (map schema_entry done ++ [(tbl_name tb, tbl_columns tb)])
        with (map schema_entry done ++ map schema_entry [tb]).
      rewrite <- map_app. apply IH. now rewrite <- app_assoc.
    + rewrite map_map. cbn [schema_entry fst]. intros Hd.
      subst db. rewrite !map_app in Hnd. cbn [map] in Hnd.
      apply NoDup_remove_2 in Hnd. apply Hnd.
      apply in_or_app. left. now apply in_map.
Qed.

(** On a file whose table names are bare and differ from one another,
    [get_schema_info] returns each table with its columns. *)
Lemma get_schema_info_engine (file : string) (w : duck) (db : database) :
  dbs w !! file = Some db ->
  forallb (fun tb => bare_ident reserved (tbl_name tb)) db = true ->
  List.NoDup (map str_lower (map tbl_name db)) ->
  exists w',
    get_schema_info (duckdb reserved) file w
    = (Return (map schema_entry db), w').
Proof.
  intros Hdb Hbare Hnd. eexists. unfold get_schema_info.
  unfold bind at 1. cbn [connect duckdb]. unfold duck_connect at 1.
  rewrite Hdb.
  set (w1 := set_conns _ _ w).
  assert (Hcon : conns w1 !! next_con w = Some (file, true))
    by apply lookup_insert_eq.
  unfold bind at 1. cbn [execute duckdb]. unfold duck_execute at 1.
  rewrite Hcon, parse_show_tables.
  change (dbs w1) with (dbs w). rewrite Hdb. cbn [default].
  change (id db) with db. unfold bind at 1.
  pose proof (describe_loop_engine (next_con w) w1 file true db Hcon Hdb
                Hbare Hnd db [] eq_refl) as Hloop.
  cbn [map] in Hloop. rewrite Hloop. reflexivity.
Qed.


Lemma tables_named (self : BikeStoreDb) (w : duck) (files : list string)
  (created : list table) :
  Forall2 (is_table_of w self) files created ->
  map tbl_name created = map (fun fname => fst (splitext fname)) files.
Proof.
  induction 1 as [|fname tb files created [Hn _] H IH]; simpl; congruence.
Qed.

Lemma tables_bare (self : BikeStoreDb) (w : duck) (files : list string)
  (created : list table) :
  forallb (sendable reserved self) files = true ->
  Forall2 (is_table_of w self) files created ->
  forallb (fun tb => bare_ident reserved (tbl_name tb)) created = true.
Proof.
  intros Hs H. induction H as [|fname tb files created [Hn _] H IH];
    [reflexivity|].
  simpl in *. apply andb_true_iff in Hs as [Hs1 Hs].
  unfold sendable in Hs1. apply andb_true_iff in Hs1 as [Hb _].
  now rewrite Hn, Hb, IH.
Qed.



Lemma keeps_tables_refl (w : duck) : keeps_tables w w.
Proof. intros file db H. exists []. now rewrite app_nil_r. Qed.

Lemma keeps_tables_same (w w' : duck) : dbs w' = dbs w -> keeps_tables w w'.
Proof. intros E file db H. exists []. now rewrite E, app_nil_r. Qed.

Lemma keeps_tables_trans (w1 w2 w3 : duck) :
  keeps_tables w1 w2 -> keeps_tables w2 w3 -> keeps_tables w1 w3.
Proof.
  intros H12 H23 file db H.
  destruct (H12 _ _ H) as (a & Ha). destruct (H23 _ _ Ha) as (b & Hb).
  exists (a ++ b). now rewrite app_assoc.
Qed.

Lemma keeps_tables_append (w : duck) (file : string) (tb : table) :
  keeps_tables w
    (set_dbs (<[file := default [] (dbs w !! file) ++ [tb]]> (dbs w)) w).
Proof.
  intros file' db H. cbn [dbs set_dbs].
  destruct (decide (file = file')) as [->|Hne].
  - rewrite lookup_insert_eq, H. now exists [tb].
  - rewrite lookup_insert_ne by exact Hne. exists []. now rewrite app_nil_r.
Qed.

(** Whatever the statement, [execute] removes no table and alters none. *)
Lemma execute_keeps_tables (con : handle) (sql : string) (w : duck) :
  keeps_tables w (snd (duck_execute reserved con sql w)).
Proof.
  unfold duck_execute.
  destruct (conns w !! con) as [[file read_only]|];
    [|apply keeps_tables_refl].
  destruct (parse sql) as [|t|t fpath|]; try apply keeps_tables_refl.
  - destruct (bare_ident reserved t); [|apply keeps_tables_refl].
    destruct (find_table t _); apply keeps_tables_refl.
  - destruct (bare_ident reserved t); [|apply keeps_tables_refl].
    destruct read_only; [apply keeps_tables_refl|]. cbn [negb].
    destruct (csvs w !! fpath) as [[columns rows]|];
      [|apply keeps_tables_refl].
    destruct (find_table t _); [apply keeps_tables_refl|].
    apply keeps_tables_append.
Qed.

Lemma connect_keeps_tables (file : string) (read_only : bool) (w : duck) :
  keeps_tables w (snd (duck_connect file read_only w)).
Proof.
  unfold duck_connect. destruct (dbs w !! file) as [db|] eqn:E.
  - now apply keeps_tables_same.
  - destruct read_only; [apply keeps_tables_refl|].
    intros file' db H. cbn [snd dbs set_dbs set_conns].
    rewrite lookup_insert_ne by congruence. exists []. now rewrite app_nil_r.
Qed.

Lemma load_loop_keeps_tables (self : BikeStoreDb) (con : handle)
  (entries : list string) :
  forall (count : nat) (w : duck),
    keeps_tables w
      (snd (for_each entries (load_file (duckdb reserved) self con) count w)).
Proof.
  induction entries as [|fname entries IH]; intros count w.
  - apply keeps_tables_refl.
  - cbn [for_each]. unfold bind at 1, load_file at 1.
    destruct (str_endswith (str_lower fname) ".csv").
    + unfold bind at 1. cbn [execute duckdb].
      pose proof (execute_keeps_tables con
                    (create_sql (fst (splitext fname))
                       (path_join (download_path self) fname)) w) as Hk.
      destruct (duck_execute reserved con _ w) as [[rows|e] w1];
        cbn [snd] in Hk; [|exact Hk].
      unfold ret at 1. eapply keeps_tables_trans; [exact Hk | apply IH].
    + unfold ret at 1. apply IH.
Qed.

(** The load removes no table and alters none, however it ends. *)
Lemma create_db_keeps_tables (self : BikeStoreDb) (w : duck) :
  keeps_tables w (snd (_create_db (duckdb reserved) self w)).
Proof.
  unfold _create_db, bind at 1. cbn [connect duckdb].
  pose proof (connect_keeps_tables (db_path self) false w) as Hc.
  destruct (duck_connect (db_path self) false w) as [[con|e] w1];
    cbn [snd] in Hc; [|exact Hc].
  eapply keeps_tables_trans; [exact Hc|].
  unfold bind at 1. cbn [listdir duckdb]. unfold duck_listdir at 1.
  destruct (dirs w1 !! download_path self) as [entries|];
    [|apply keeps_tables_refl].
  unfold bind at 1.
  pose proof (load_loop_keeps_tables self con entries 0 w1) as Hl.
  destruct (for_each entries _ 0 w1) as [[count|e] w2]; cbn [snd] in Hl;
    [|exact Hl].
  eapply keeps_tables_trans; [exact Hl|]. now apply keeps_tables_same.
Qed.


(** What a load statement within the model does. *)
Lemma execute_create_cases (con : handle) (w : duck) (file t fpath : string) :
  conns w !! con = Some (file, false) ->
  bare_ident reserved t = true ->
  quote_free fpath = true ->
  duck_execute reserved con (create_sql t fpath) w
  = match csvs w !! fpath with
    | None => (Raise (Exn "IOException" "No files found"), w)
    | Some (columns, rows) =>
        match find_table t (default [] (dbs w !! file)) with
        | Some _ => (Return [], w)
        | None =>
            (Return [],
             set_dbs (<[file := default [] (dbs w !! file)
                                ++ [ {| tbl_name := t; tbl_columns := columns;
                                        tbl_rows := rows |} ]]> (dbs w)) w)
        end
    end.
Proof.
  intros Hcon Hbare Hq. unfold duck_execute.
  rewrite Hcon, (parse_create t fpath) by auto using bare_ident_chars.
  rewrite Hbare. cbn [negb].
  destruct (csvs w !! fpath) as [[columns rows]|]; reflexivity.
Qed.

Lemma find_table_app_l (t : string) (db added : database) (tb : table) :
  find_table t db = Some tb -> find_table t (db ++ added) = Some tb.
Proof.
  unfold find_table. induction db as [|tb' db IH]; simpl; [discriminate|].
  destruct (ident_eqb (tbl_name tb') t); auto.
Qed.

Lemma find_table_app_new (db : database) (tb : table) :
  find_table (tbl_name tb) db = None ->
  find_table (tbl_name tb) (db ++ [tb]) = Some tb.
Proof.
  unfold find_table. induction db as [|tb' db IH]; simpl.
  - intros _. unfold ident_eqb. now rewrite String.eqb_refl.
  - destruct (ident_eqb (tbl_name tb') (tbl_name tb)); [discriminate|auto].
Qed.

Lemma load_loop_returns (self : BikeStoreDb) (con : handle)
  (entries : list string) :
  forall (count : nat) (w : duck) (c : nat) (w' : duck),
    conns w !! con = Some (db_path self, false) ->
    forallb (sendable reserved self) (List.filter is_csv entries) = true ->
    for_each entries (load_file (duckdb reserved) self con) count w
    = (Return c, w') ->
    conns w' = conns w /\ csvs w' = csvs w /\ dirs w' = dirs w
    /\ List.Forall (loaded self w') (List.filter is_csv entries).
Proof.
  induction entries as [|fname entries IH]; intros count w c w' Hcon Hs Hrun.
  - injection Hrun as _ <-. repeat split. constructor.
  - cbn [for_each] in Hrun. unfold bind at 1, load_file at 1 in Hrun.
    cbn [List.filter] in *.
    change (str_endswith (str_lower fname) ".csv") with (is_csv fname) in Hrun.
    destruct (is_csv fname) eqn:Ecsv.
    + cbn [forallb] in Hs. apply andb_true_iff in Hs as [Hs1 Hs].
      unfold sendable in Hs1. apply andb_true_iff in Hs1 as [Hbare Hq].
      unfold bind at 1 in Hrun. cbn [execute duckdb] in Hrun.
      rewrite (execute_create_cases con w _ _ _ Hcon Hbare Hq) in Hrun.
      destruct (csvs w !! path_join (download_path self) fname)
        as [[columns rows]|] eqn:Ecsvs; [|discriminate Hrun].
      set (t := fst (splitext fname)) in *.
      set (db := default [] (dbs w !! db_path self)) in *.
      assert (Hstep : exists w1 db1 tb,
                 for_each entries (load_file (duckdb reserved) self con)
                   (count + 1) w1 = (Return c, w')
                 /\ conns w1 = conns w /\ csvs w1 = csvs w /\ dirs w1 = dirs w
                 /\ dbs w1 !! db_path self = Some db1
                 /\ find_table t db1 = Some tb).
      { destruct (find_table t db) as [tb|] eqn:Ef.
        - exists w, db, tb. repeat split; auto.
          unfold db in *. destruct (dbs w !! db_path self); [reflexivity|].
          discriminate Ef.
        - eexists. exists (db ++ [ {| tbl_name := t; tbl_columns := columns;
                                      tbl_rows := rows |} ]).
          eexists. split; [exact Hrun|]. cbn [conns csvs dirs dbs set_dbs].
          repeat split; [apply lookup_insert_eq|].
          now apply (find_table_app_new db
                       {| tbl_name := t; tbl_columns := columns;
                          tbl_rows := rows |}). }
      destruct Hstep as (w1 & db1 & tb & Hrest & Hc1 & Hv1 & Hd1 & Hdb1 & Hf1).
      destruct (IH _ _ _ _ (eq_trans (f_equal (fun m => m !! con) Hc1) Hcon)
                  Hs Hrest) as (Hc' & Hv' & Hd' & Hall).
      repeat split; try congruence.
      constructor; [|exact Hall]. split.
      * rewrite Hv', Hv1, Ecsvs. eauto.
      * pose proof (load_loop_keeps_tables self con entries (count + 1) w1)
          as Hk.
        rewrite Hrest in Hk. destruct (Hk _ _ Hdb1) as (added & Ha).
        cbn [snd] in Ha. rewrite Ha. cbn [default]. fold t.
        change (id (db1 ++ added)) with (db1 ++ added).
        now rewrite (find_table_app_l t db1 added tb Hf1).
    + unfold ret at 1 in Hrun. now apply (IH _ _ _ _ Hcon Hs Hrun).
Qed.

Lemma load_loop_again (self : BikeStoreDb) (con : handle)
  (entries : list string) :
  forall (count : nat) (w : duck),
    conns w !! con = Some (db_path self, false) ->
    forallb (sendable reserved self) (List.filter is_csv entries) = true ->
    List.Forall (loaded self w) (List.filter is_csv entries) ->
    for_each entries (load_file (duckdb reserved) self con) count w
    = (Return (count + length (List.filter is_csv entries)), w).
Proof.
  induction entries as [|fname entries IH]; intros count w Hcon Hs Hall.
  - simpl. now rewrite Nat.add_0_r.
  - cbn [for_each]. unfold bind at 1, load_file at 1. cbn [List.filter] in *.
    change (str_endswith (str_lower fname) ".csv") with (is_csv fname).
    destruct (is_csv fname) eqn:Ecsv.
    + cbn [forallb] in Hs. apply andb_true_iff in Hs as [Hs1 Hs].
      unfold sendable in Hs1. apply andb_true_iff in Hs1 as [Hbare Hq].
      inversion Hall as [|x l [[[columns rows] Hcsv] Hfind] Hall']; subst.
      unfold bind at 1. cbn [execute duckdb].
      rewrite (execute_create_cases con w _ _ _ Hcon Hbare Hq), Hcsv.
      destruct (find_table _ _) as [tb|]; [|now destruct Hfind].
      unfold ret at 1. rewrite (IH _ _ Hcon Hs Hall'). cbn [length].
      f_equal. f_equal. lia.
    + unfold ret at 1. now apply IH.
Qed.


Lemma create_db_returns (self : BikeStoreDb) (w w1 : duck)
  (entries : list string) :
  dirs w !! download_path self = Some entries ->
  forallb (sendable reserved self) (List.filter is_csv entries) = true ->
  _create_db (duckdb reserved) self w = (Return tt, w1) ->
  csvs w1 = csvs w /\ dirs w1 = dirs w
  /\ is_Some (dbs w1 !! db_path self)
  /\ List.Forall (loaded self w1) (List.filter is_csv entries).
Proof.
  intros Hdir Hs. unfold _create_db.
  destruct (connect_for_writing (db_path self) w)
    as (wa & Hc & Hcon & Hdb & Hdirs & Hcsvs).
  cbn [connect listdir duckdb].
  rewrite (bind_Return _ _ _ _ _ Hc).
  assert (Hl : duck_listdir (download_path self) wa = (Return entries, wa)).
  { unfold duck_listdir. now rewrite Hdirs, Hdir. }
  rewrite (bind_Return _ _ _ _ _ Hl).
  unfold bind at 1.
  destruct (for_each entries _ 0 wa) as [[count|e] wb] eqn:Hloop;
    [|discriminate].
  destruct (load_loop_returns self _ entries _ _ _ _ Hcon Hs Hloop)
    as (Hc' & Hv' & Hd' & Hall).
  pose proof (load_loop_keeps_tables self (next_con w) entries 0 wa) as Hk.
  rewrite Hloop in Hk. destruct (Hk _ _ Hdb) as (added & Ha).
  cbn [snd] in Ha.
  intros H. injection H as <-. cbn [csvs dirs dbs duck_print duck_close set_conns].
  repeat split; try congruence; eauto.
Qed.

Lemma create_db_again (self : BikeStoreDb) (w : duck) (entries : list string) :
  dirs w !! download_path self = Some entries ->
  forallb (sendable reserved self) (List.filter is_csv entries) = true ->
  is_Some (dbs w !! db_path self) ->
  List.Forall (loaded self w) (List.filter is_csv entries) ->
  exists w',
    _create_db (duckdb reserved) self w = (Return tt, w') /\ dbs w' = dbs w.
Proof.
  intros Hdir Hs [db Hdb] Hall. eexists. unfold _create_db.
  unfold bind at 1. cbn [connect listdir duckdb]. unfold duck_connect at 1.
  rewrite Hdb.
  set (wa := set_conns _ _ w).
  assert (Hcon : conns wa !! next_con w = Some (db_path self, false))
    by apply lookup_insert_eq.
  unfold bind at 1, duck_listdir at 1. change (dirs wa) with (dirs w).
  rewrite Hdir. unfold bind at 1.
  rewrite (load_loop_again self (next_con w) entries 0 wa Hcon Hs Hall).
  split; reflexivity.
Qed.

Lemma create_db_no_directory (self : BikeStoreDb) (w : duck) :
  dirs w !! download_path self = None ->
  exists e w', _create_db (duckdb reserved) self w = (Raise e, w').
Proof.
  intros Hdir. unfold _create_db.
  destruct (connect_for_writing (db_path self) w)
    as (wa & Hc & _ & _ & Hdirs & _).
  cbn [connect listdir duckdb]. rewrite (bind_Return _ _ _ _ _ Hc).
  unfold bind at 1, duck_listdir at 1. rewrite Hdirs, Hdir. eauto.
Qed.

(** C10: running [_create_db] a second time on the same database path
    keeps every table that the first run left there, with its name, columns
    and rows; and when the first run returned, the second returns too and
    leaves the database files exactly as they were.  The statements sent are
    taken to be within the model. *)
Theorem C10_second_load_keeps_tables :
  forall (self : BikeStoreDb) (w : duck),
    (forall entries,
        dirs w !! download_path self = Some entries ->
        forallb (sendable reserved self) (csv_files entries) = true) ->
    let '(r1, w1) := _create_db (duckdb reserved) self w in
    let '(r2, w2) := _create_db (duckdb reserved) self w1 in
    keeps_tables w1 w2
    /\ (r1 = Return tt -> r2 = Return tt /\ dbs w2 = dbs w1).
Proof.
  intros self w Hs.
  destruct (_create_db (duckdb reserved) self w) as [r1 w1] eqn:H1.
  pose proof (create_db_keeps_tables self w1) as Hk.
  destruct (_create_db (duckdb reserved) self w1) as [r2 w2] eqn:H2.
  split; [exact Hk|]. intros ->.
  destruct (dirs w !! download_path self) as [entries|] eqn:Hdir.
  - specialize (Hs entries eq_refl).
    destruct (create_db_returns self w w1 entries Hdir Hs H1)
      as (Hv & Hd & Hsome & Hall).
    destruct (create_db_again self w1 entries) as (w2' & Hrun & Hsame); auto.
    { now rewrite Hd. }
    rewrite Hrun in H2. now injection H2 as <- <-.
  - destruct (create_db_no_directory self w Hdir) as (e & w' & Hraise).
    rewrite Hraise in H1. discriminate H1.
Qed.

End EngineFacts.

(** C8, as the specification states it, fails: when the database already
    has a table of the name, the load creates no table for the file, and
    no table of the database has the columns detected in the file. *)
Lemma C8_counterexample :
  let w' := snd (_create_db (duckdb sample_reserved) store stale_database) in
  ~ one_table_per_csv_file store stale_database w'
  /\ forall tb,
       In tb (default [] (dbs w' !! "bike_store.db")) ->
       ~ loaded_from stale_database store "products.csv" tb.
Proof.
  cbv zeta. split.
  - intros (entries & created & Hdir & Hdb & Hall).
    vm_compute in Hdir. injection Hdir as <-.
    vm_compute in Hdb. injection Hdb as <-.
    vm_compute in Hall. inversion Hall.
  - intros tb Hin [_ Hcsv]. vm_compute in Hin.
    destruct Hin as [<-|[]]. vm_compute in Hcsv. discriminate Hcsv.
Qed.

(** Two files whose names differ in letter case only give one table. *)
Example load_of_twin_files :
  let '(r, w') := _create_db (duckdb sample_reserved) store twin_dataset in
  r = Return tt
  /\ dbs w' !! "bike_store.db"
     = Some [ {| tbl_name := "products"; tbl_columns := products_columns;
                 tbl_rows := [["1"; "Trek 820"]] |} ]
  /\ stdout w' = ["Created 2 tables in bike_store.db"].
Proof. vm_compute. repeat split. Qed.

(** A file whose name is no identifier stops the load: the files after it
    are not read and the connection stays open. *)
Example load_of_hyphenated_file :
  let '(r, (w', tr)) :=
    _create_db (traced (duckdb sample_reserved)) store (hyphen_dataset, []) in
  r = Raise ParserException
  /\ dbs w' !! "bike_store.db" = Some []
  /\ length tr = 2
  /\ conns w' !! 0 = Some ("bike_store.db", false).
Proof. vm_compute. repeat split. Qed.

Lemma C8_witness :
  dirs no_database !! download_path store = Some ["products.csv"; "README.md"]
  /\ exists w',
       _create_db (duckdb sample_reserved) store no_database = (Return tt, w')
       /\ one_table_per_csv_file store no_database w'.
Proof.
  split; [reflexivity|].
  apply (C8_one_table_per_csv_file sample_reserved store no_database
           ["products.csv"; "README.md"]).
  - reflexivity.
  - reflexivity.
  - repeat constructor. eexists. reflexivity.
  - vm_compute. repeat constructor. intros [].
Defined.


Lemma C10_witness :
  let '(r1, w1) := _create_db (duckdb sample_reserved) store no_database in
  let '(r2, w2) := _create_db (duckdb sample_reserved) store w1 in
  keeps_tables w1 w2
  /\ (r1 = Return tt -> r2 = Return tt /\ dbs w2 = dbs w1).
Proof.
  apply (C10_second_load_keeps_tables sample_reserved store no_database).
  intros entries Hdir. vm_compute in Hdir. injection Hdir as <-. reflexivity.
Defined.

End BikeStoreFacts.

(** * File names and table names *)

Module NameFacts.
Import BikeStore BikeStoreFacts.

#[local] Arguments String.append !s1 s2 : simpl nomatch.

Lemma str_lower_split (s a b : string) :
  str_lower s = a +:+ b ->
  exists s1 s2, s = s1 +:+ s2 /\ str_lower s1 = a /\ str_lower s2 = b.
Proof.
  revert s. induction a as [|x a IH]; intros s H.
  - exists "", s. auto.
  - destruct s as [|c s]; [discriminate H|].
    simpl in H. injection H as Hx Hs.
    destruct (IH s Hs) as (s1 & s2 & -> & H1 & H2).
    exists (String c s1), s2. simpl. repeat split; congruence.
Qed.

Lemma is_csv_app (name ext : string) :
  str_lower ext = ".csv" -> is_csv (name +:+ ext) = true.
Proof.
  intros H. unfold is_csv. apply str_endswith_app. exists (str_lower name).
  now rewrite str_lower_app, H.
Qed.

(** X1: the test [fname.lower().endswith(".csv")] accepts exactly the names
    whose last four characters are .csv in any letter case. *)
Theorem X1_csv_test_accepts_any_case :
  forall fname : string,
    is_csv fname = true
    <-> exists name ext, fname = name +:+ ext /\ str_lower ext = ".csv".
Proof.
  intros fname. split.
  - unfold is_csv. rewrite str_endswith_app. intros [pre H].
    destruct (str_lower_split _ _ _ H) as (name & ext & Hname & _ & Hext).
    now exists name, ext.
  - intros (name & ext & -> & H). now apply is_csv_app.
Qed.

Lemma rfind_absent (c : ascii) (p : string) :
  str_forall (fun x => negb (Ascii.eqb x c)) p = true -> rfind c p = (-1)%Z.
Proof.
  induction p as [|a p IH]; simpl; [reflexivity|]. intros H.
  apply andb_true_iff in H as [Ha Hp]. rewrite (IH Hp). simpl.
  now destruct (Ascii.eqb a c).
Qed.

Lemma rfind_last (c : ascii) (a b : string) :
  str_forall (fun x => negb (Ascii.eqb x c)) b = true ->
  rfind c (a +:+ String c b) = Z.of_nat (String.length a).
Proof.
  intros Hb. induction a as [|x a IH].
  - simpl. rewrite (rfind_absent c b Hb). simpl. now rewrite Ascii.eqb_refl.
  - change (String x a +:+ String c b) with (String x (a +:+ String c b)).
    cbn [rfind String.length]. rewrite IH.
    destruct (0 <=? Z.of_nat (String.length a))%Z eqn:E; [lia|].
    apply Z.leb_gt in E. lia.
Qed.

Lemma substring_at (pre : string) (c : ascii) (t : string) :
  String.substring (String.length pre) 1 (pre +:+ String c t) = String c "".
Proof.
  induction pre as [|x pre IH]; simpl; [now destruct t | exact IH].
Qed.

(** The loop of [splitext] finds the first character that is no dot. *)
Lemma splitext_loop_finds (dots : string) (c : ascii) (t : string) :
  forall (pre : string) (d : Z) (fuel : nat),
    str_forall (fun x => Ascii.eqb x ".") dots = true ->
    Ascii.eqb c "." = false ->
    (Z.of_nat (String.length pre + String.length dots) < d)%Z ->
    String.length dots < fuel ->
    splitext_loop (pre +:+ dots +:+ String c t) d
      (Z.of_nat (String.length pre)) fuel = true.
Proof.
  induction dots as [|x dots IH]; intros pre d fuel Hd Hc Hlt Hfuel.
  - destruct fuel as [|fuel]; [simpl in Hfuel; lia|].
    cbn [splitext_loop]. simpl String.length in Hlt.
    destruct (Z.of_nat (String.length pre) <? d)%Z eqn:E;
      [|apply Z.ltb_ge in E; lia].
    unfold slice.
    replace (Z.to_nat (Z.of_nat (String.length pre) + 1
                       - Z.of_nat (String.length pre))) with 1 by lia.
    rewrite Nat2Z.id. change ("" +:+ String c t) with (String c t).
    rewrite substring_at. simpl. now rewrite Hc.
  - destruct fuel as [|fuel]; [simpl in Hfuel; lia|].
    simpl in Hd. apply andb_true_iff in Hd as [Hx Hd].
    apply Ascii.eqb_eq in Hx. subst x.
    cbn [splitext_loop]. simpl String.length in Hlt, Hfuel.
    destruct (Z.of_nat (String.length pre) <? d)%Z eqn:E;
      [|apply Z.ltb_ge in E; lia].
    unfold slice.
    replace (Z.to_nat (Z.of_nat (String.length pre) + 1
                       - Z.of_nat (String.length pre))) with 1 by lia.
    rewrite Nat2Z.id.
    change (String "." dots +:+ String c t)
      with (String "." (dots +:+ String c t)).
    rewrite substring_at. simpl negb. cbv iota.
    specialize (IH (pre +:+ ".") d fuel Hd Hc).
    rewrite length_app in IH. simpl String.length in IH.
    replace (Z.of_nat (String.length pre) + 1)%Z
      with (Z.of_nat (String.length pre + 1)) by lia.
    replace (pre +:+ String "." (dots +:+ String c t))
      with ((pre +:+ ".") +:+ dots +:+ String c t).
    + apply IH; lia.
    + clear. induction pre as [|y pre IHp]; simpl; congruence.
Qed.

(** A text that is not made of dots alone splits at its first other
    character. *)
Lemma first_other_char (s : string) :
  str_forall (fun x => Ascii.eqb x ".") s = false ->
  exists dots c t,
    s = dots +:+ String c t
    /\ str_forall (fun x => Ascii.eqb x ".") dots = true
    /\ Ascii.eqb c "." = false.
Proof.
  induction s as [|x s IH]; simpl; [discriminate|].
  destruct (Ascii.eqb x ".") eqn:E; simpl.
  - intros H. destruct (IH H) as (dots & c & t & -> & Hd & Hc).
    exists (String x dots), c, t. simpl. rewrite E. auto.
  - intros _. exists "", x, s. auto.
Qed.

Lemma lower_char_slash (x : ascii) :
  Ascii.eqb (lower_char x) "/" = Ascii.eqb x "/".
Proof.
  unfold lower_char.
  destruct ((65 <=? nat_of_ascii x)%nat && (nat_of_ascii x <=? 90)%nat)
    eqn:E; [|reflexivity].
  apply andb_true_iff in E as [E1 E2].
  apply Nat.leb_le in E1. apply Nat.leb_le in E2.
  transitivity false.
  - apply Ascii.eqb_neq. intros H.
    apply (f_equal nat_of_ascii) in H.
    rewrite nat_ascii_embedding in H by lia.
    change (nat_of_ascii "/") with 47 in H. lia.
  - symmetry. apply Ascii.eqb_neq. intros ->.
    change (nat_of_ascii "/") with 47 in E1. lia.
Qed.

(** An extension that lowers to .csv is a dot and three letters. *)
Lemma csv_extension (ext : string) :
  str_lower ext = ".csv" ->
  exists rest,
    ext = String "." rest
    /\ str_forall (fun x => negb (Ascii.eqb x ".")) rest = true
    /\ str_forall (fun x => negb (Ascii.eqb x "/")) ext = true.
Proof.
  intros H.
  destruct ext as [|d [|c [|s [|v [|]]]]]; try discriminate H.
  simpl in H. injection H as Hd Hc Hs Hv.
  assert (d = "."%char) as ->.
  { apply Ascii.eqb_eq. rewrite <- lower_char_dot, Hd. reflexivity. }
  exists (String c (String s (String v ""))). split; [reflexivity|].
  simpl.
  rewrite <- (lower_char_dot c), <- (lower_char_dot s), <- (lower_char_dot v).
  rewrite <- (lower_char_slash c), <- (lower_char_slash s),
    <- (lower_char_slash v).
  rewrite Hc, Hs, Hv. now split.
Qed.

(** X2: for a file name without a slash whose part before the final .csv is not
    dots alone, [os.path.splitext] gives that part, letter case kept, and
    the four characters of the extension. *)
Theorem X2_table_name_is_the_name_without_extension :
  forall name ext : string,
    str_lower ext = ".csv" ->
    str_forall (fun x => negb (Ascii.eqb x "/")) name = true ->
    str_forall (fun x => Ascii.eqb x ".") name = false ->
    is_csv (name +:+ ext) = true
    /\ splitext (name +:+ ext) = (name, ext).
Proof.
  intros name ext Hext Hslash Hdots. split.
  { now apply is_csv_app. }
  destruct (csv_extension ext Hext) as (rest & -> & Hrest & Hes).
  destruct (first_other_char name Hdots) as (dots & c & t & Hname & Hd & Hc).
  unfold splitext.
  rewrite (rfind_absent "/") by (rewrite str_forall_app, Hslash, Hes; reflexivity).
  rewrite (rfind_last "." name rest Hrest).
  assert (Hloop : splitext_loop (name +:+ String "." rest)
                    (Z.of_nat (String.length name)) (-1 + 1)
                    (String.length (name +:+ String "." rest)) = true).
  { subst name.
    replace ((dots +:+ String c t) +:+ String "." rest)
      with ("" +:+ dots +:+ String c (t +:+ String "." rest)).
    - apply (splitext_loop_finds dots c _ "" _ _ Hd Hc).
      + rewrite length_app. cbn [String.length]. lia.
      + change ("" +:+ dots +:+ String c (t +:+ String "." rest))
          with (dots +:+ String c (t +:+ String "." rest)).
        rewrite length_app. cbn [String.length]. lia.
    - change ("" +:+ dots +:+ String c (t +:+ String "." rest))
        with (dots +:+ String c (t +:+ String "." rest)).
      clear. induction dots as [|y dots IHd]; simpl; congruence. }
  rewrite Hloop.
  destruct (-1 <? Z.of_nat (String.length name))%Z eqn:E;
    [|apply Z.ltb_ge in E; lia].
  simpl andb. cbv iota. unfold slice, slice_from.
  rewrite Z.sub_0_r, Nat2Z.id. simpl (Z.to_nat 0).
  rewrite substring_prefix. f_equal.
  rewrite length_app.
  replace (String.length name + String.length (String "." rest)
           - String.length name)
    with (String.length (String "." rest)) by lia.
  apply substring_suffix.
Qed.

Lemma X2_witness :
  str_lower ".CSV" = ".csv"
  /\ is_csv ("Order_Items" +:+ ".CSV") = true
  /\ splitext ("Order_Items" +:+ ".CSV") = ("Order_Items", ".CSV").
Proof.
  split; [reflexivity|].
  apply (X2_table_name_is_the_name_without_extension "Order_Items" ".CSV");
    reflexivity.
Defined.

(** The loop of [splitext] finds nothing in a run of dots. *)
Lemma splitext_loop_dots (dots : string) (t : string) :
  forall (pre : string) (fuel : nat),
    str_forall (fun x => Ascii.eqb x ".") dots = true ->
    splitext_loop (pre +:+ dots +:+ t)
      (Z.of_nat (String.length pre + String.length dots))
      (Z.of_nat (String.length pre)) fuel = false.
Proof.
  induction dots as [|x dots IH]; intros pre fuel Hd.
  - destruct fuel as [|fuel]; [reflexivity|]. cbn [splitext_loop].
    simpl String.length.
    destruct (_ <? _)%Z eqn:E; [apply Z.ltb_lt in E; lia | reflexivity].
  - destruct fuel as [|fuel]; [reflexivity|].
    simpl in Hd. apply andb_true_iff in Hd as [Hx Hd].
    apply Ascii.eqb_eq in Hx. subst x.
    cbn [splitext_loop]. simpl String.length.
    destruct (_ <? _)%Z eqn:E; [|reflexivity].
    unfold slice.
    replace (Z.to_nat (Z.of_nat (String.length pre) + 1
                       - Z.of_nat (String.length pre))) with 1 by lia.
    rewrite Nat2Z.id.
    change (String "." dots +:+ t) with (String "." (dots +:+ t)).
    rewrite substring_at. simpl negb. cbv iota.
    specialize (IH (pre +:+ ".") fuel Hd).
    rewrite length_app in IH. simpl String.length in IH.
    replace (Z.of_nat (String.length pre) + 1)%Z
      with (Z.of_nat (String.length pre + 1)) by lia.
    replace (String.length pre + S (String.length dots))
      with (String.length pre + 1 + String.length dots) by lia.
    replace (pre +:+ String "." (dots +:+ t))
      with ((pre +:+ ".") +:+ dots +:+ t).
    + exact IH.
    + clear. induction pre as [|y pre IHp]; simpl; congruence.
Qed.

(** X3: a name that is .csv alone, or dots and then .csv, passes the test of the
    load but keeps its extension: the table name is the whole file name. *)
Theorem X3_hidden_csv_file_keeps_its_extension :
  forall dots ext : string,
    str_lower ext = ".csv" ->
    str_forall (fun x => Ascii.eqb x ".") dots = true ->
    is_csv (dots +:+ ext) = true
    /\ splitext (dots +:+ ext) = (dots +:+ ext, "").
Proof.
  intros dots ext Hext Hd. split.
  { now apply is_csv_app. }
  destruct (csv_extension ext Hext) as (rest & -> & Hrest & Hes).
  unfold splitext. rewrite (rfind_last "." dots rest Hrest).
  assert (Hslash : rfind "/" (dots +:+ String "." rest) = (-1)%Z).
  { apply rfind_absent. rewrite str_forall_app, Hes, andb_true_r.
    clear - Hd. induction dots as [|x dots IH]; simpl in *; [reflexivity|].
    apply andb_true_iff in Hd as [Hx Hd]. apply Ascii.eqb_eq in Hx. subst x.
    now rewrite (IH Hd). }
  rewrite Hslash.
  pose proof (splitext_loop_dots dots (String "." rest) ""
                (String.length (dots +:+ String "." rest)) Hd) as Hloop.
  change ("" +:+ dots +:+ String "." rest) with (dots +:+ String "." rest)
    in Hloop.
  change (String.length "" + String.length dots) with (String.length dots)
    in Hloop.
  change (Z.of_nat (String.length "")) with (-1 + 1)%Z in Hloop.
  rewrite Hloop. now rewrite andb_false_r.
Qed.

Lemma X3_witness :
  str_lower ".csv" = ".csv"
  /\ is_csv ("" +:+ ".csv") = true
  /\ splitext ("" +:+ ".csv") = ("" +:+ ".csv", "").
Proof.
  split; [reflexivity|].
  apply (X3_hidden_csv_file_keeps_its_extension "" ".csv"); reflexivity.
Defined.

End NameFacts.

(** * The load, on any platform and on the reference model *)

Module LoadFacts.
Import BikeStore BikeStoreFacts Startup.

#[local] Arguments String.append !s1 s2 : simpl nomatch.

Lemma Forall_firstn {A} (Q : A -> Prop) (n : nat) (l : list A) :
  Forall Q l -> Forall Q (firstn n l).
Proof.
  intros H. revert n. induction H as [|x l Hx H IH]; intros [|n]; simpl;
    constructor; auto.
Qed.

Section AnyPlatform.

Context {W : Type} (P : platform W).

(** The counter of the loop counts the entries that pass the test. *)
Lemma load_loop_count (self : BikeStoreDb) (con : handle)
  (entries : list string) :
  forall (count : nat) (w : W) (c : nat) (w' : W),
    for_each entries (load_file P self con) count w = (Return c, w') ->
    c = count + length (csv_files entries).
Proof.
  induction entries as [|fname entries IH]; intros count w c w' H.
  - injection H as <- _. simpl. lia.
  - cbn [for_each] in H. unfold bind at 1, load_file at 1 in H.
    cbn [List.filter].
    change (str_endswith (str_lower fname) ".csv") with (is_csv fname) in H.
    destruct (is_csv fname).
    + unfold bind at 1 in H.
      destruct (execute P con _ w) as [[rows|e] w1]; [|discriminate H].
      unfold ret at 1 in H. apply IH in H. simpl. lia.
    + unfold ret at 1 in H. now apply IH in H.
Qed.

(** The loop sends the statement of each entry that passes the test, in
    the order of the listing, and stops at the first that raises. *)
Lemma load_loop_trace (self : BikeStoreDb) (con : handle)
  (entries : list string) :
  forall (count : nat) (w : W) (tr : list event),
    let '(r, (_, tr')) :=
      for_each entries (load_file (traced P) self con) count (w, tr) in
    let sent := map (load_statement self con) (csv_files entries) in
    match r with
    | Return _ => tr' = tr ++ sent
    | Raise _ => exists n, 0 < n /\ tr' = tr ++ firstn n sent
    end.
Proof.
  induction entries as [|fname entries IH]; intros count w tr.
  - simpl. now rewrite app_nil_r.
  - cbn [for_each]. unfold bind at 1, load_file at 1. cbn [List.filter].
    change (str_endswith (str_lower fname) ".csv") with (is_csv fname).
    destruct (is_csv fname).
    + unfold bind at 1. cbn [execute traced].
      destruct (execute P con _ w) as [[rows|e] w1].
      * unfold ret at 1.
        specialize (IH (count + 1)%nat w1
                      (tr ++ [load_statement self con fname])).
        destruct (for_each entries _ _ _) as [[c|e] [w2 tr2]]; cbn [map];
          cbv zeta in IH.
        -- subst tr2. now rewrite <- app_assoc.
        -- destruct IH as (n & Hn & ->). exists (S n). split; [lia|].
           now rewrite <- app_assoc.
      * exists 1. split; [lia|]. reflexivity.
    + unfold ret at 1. apply IH.
Qed.

(** X4: the statements of the load: [_create_db] opens the database for
    writing, sends one CREATE TABLE IF NOT EXISTS statement per entry of
    the listing whose name passes the .csv test, in the order of the
    listing and none for any other entry, and closes; when it raises, the
    statements sent are a beginning of these, the last one being the one
    that raised. *)
Theorem X4_load_sends_one_statement_per_csv_file :
  forall (self : BikeStoreDb) (w : W) (con : handle) (w1 : W)
         (entries : list string) (w2 : W),
    connect P (db_path self) false w = (Return con, w1) ->
    listdir P (download_path self) w1 = (Return entries, w2) ->
    let '(r, (_, tr)) := _create_db (traced P) self (w, []) in
    let sent := map (load_statement self con) (csv_files entries) in
    match r with
    | Return _ =>
        tr = EvConnect (db_path self) false con :: sent ++ [EvClose con]
    | Raise _ =>
        exists n,
          0 < n /\ tr = EvConnect (db_path self) false con :: firstn n sent
    end.
Proof.
  intros self w con w1 entries w2 Hc Hl. unfold _create_db, bind at 1.
  cbn [connect traced]. rewrite Hc.
  unfold bind at 1. cbn [listdir traced app]. rewrite Hl.
  unfold bind at 1.
  pose proof (load_loop_trace self con entries 0 w2
                [EvConnect (db_path self) false con]) as Hloop.
  destruct (for_each entries _ 0 _) as [[c|e] [w3 tr3]].
  - cbv zeta in Hloop. subst tr3. cbn. now rewrite <- ?app_assoc.
  - exact Hloop.
Qed.

(** X5: the connection of the load: [_create_db] closes the connection it
    opened as its last call on it when it returns; when it raises it has
    closed no connection. *)
Theorem X5_load_closes_on_return_only :
  forall (self : BikeStoreDb) (w : W),
    let '(r, (_, tr)) := _create_db (traced P) self (w, []) in
    match r with
    | Return _ =>
        exists con calls,
          tr = EvConnect (db_path self) false con :: calls ++ [EvClose con]
          /\ executes_on con calls
    | Raise _ =>
        (forall con, ~ In (EvClose con) tr)
        /\ (tr = []
            \/ exists con calls,
                 tr = EvConnect (db_path self) false con :: calls
                 /\ executes_on con calls)
    end.
Proof.
  intros self w. unfold _create_db, bind at 1. cbn [connect traced].
  destruct (connect P (db_path self) false w) as [[con|e] w1].
  2:{ split; [intros con [] | now left]. }
  assert (Hsent : forall entries n,
             executes_on con
               (firstn n (map (load_statement self con) (csv_files entries)))).
  { intros entries n. apply Forall_firstn. apply List.Forall_forall.
    intros ev Hin. apply in_map_iff in Hin as (fname & <- & _).
    unfold load_statement. eauto. }
  assert (Hnoclose : forall calls con',
             executes_on con calls ->
             ~ In (EvClose con')
                 (EvConnect (db_path self) false con :: calls)).
  { intros calls con' Hf [H|H]; [discriminate H|].
    unfold executes_on in Hf. rewrite List.Forall_forall in Hf.
    destruct (Hf _ H) as [sql Hsql]. discriminate Hsql. }
  unfold bind at 1. cbn [listdir traced app].
  destruct (listdir P (download_path self) w1) as [[entries|e] w2].
  2:{ split; [intros con'; apply (Hnoclose [] con'); constructor|].
      right. exists con, []. split; [reflexivity | constructor]. }
  unfold bind at 1.
  pose proof (load_loop_trace self con entries 0 w2
                [EvConnect (db_path self) false con]) as Hloop.
  destruct (for_each entries _ 0 _) as [[c|e] [w3 tr3]].
  - exists con, (map (load_statement self con) (csv_files entries)).
    split.
    + cbv zeta in Hloop. subst tr3. cbn. now rewrite <- ?app_assoc.
    + rewrite <- (firstn_all (map _ _)). apply Hsent.
  - destruct Hloop as (n & _ & ->). cbn [app]. split.
    + intros con'. apply Hnoclose, Hsent.
    + right. exists con. eexists. split; [reflexivity | apply Hsent].
Qed.

End AnyPlatform.

Lemma X4_witness :
  let '(r, (_, tr)) :=
    _create_db (traced (duckdb sample_reserved)) store (no_database, []) in
  let sent := map (load_statement store 0) (csv_files ["products.csv"; "README.md"]) in
  match r with
  | Return _ => tr = EvConnect (db_path store) false 0 :: sent ++ [EvClose 0]
  | Raise _ =>
      exists n, 0 < n /\ tr = EvConnect (db_path store) false 0 :: firstn n sent
  end.
Proof.
  apply (X4_load_sends_one_statement_per_csv_file (duckdb sample_reserved)
           store no_database 0
           (snd (connect (duckdb sample_reserved) "bike_store.db" false
                         no_database))
           ["products.csv"; "README.md"]
           (snd (connect (duckdb sample_reserved) "bike_store.db" false
                         no_database)));
    reflexivity.
Defined.

End LoadFacts.

Module LoadModelFacts.
Import BikeStore BikeStoreFacts Startup.

#[local] Arguments String.append !s1 s2 : simpl nomatch.

Lemma for_each_app {W A B} (l1 l2 : list A) (body : A -> B -> M W B)
  (acc : B) (w : W) :
  for_each (l1 ++ l2) body acc w
  = match for_each l1 body acc w with
    | (Return acc', w') => for_each l2 body acc' w'
    | (Raise e, w') => (Raise e, w')
    end.
Proof.
  revert acc w. induction l1 as [|x l1 IH]; intros acc w; [reflexivity|].
  cbn [app for_each]. unfold bind.
  destruct (body x acc w) as [[acc'|e] w']; [apply IH | reflexivity].
Qed.

Section OnTheModel.

Variable reserved : string -> bool.

Lemma only_database_of_refl (con : handle) (w : duck) :
  only_database_of con w w.
Proof. unfold only_database_of. repeat split; auto. Qed.

Lemma only_database_of_trans (con : handle) (w1 w2 w3 : duck) :
  only_database_of con w1 w2 -> only_database_of con w2 w3 ->
  only_database_of con w1 w3.
Proof.
  intros (Hd & Hv & Hc & Hn & Ho & Hf) (Hd' & Hv' & Hc' & Hn' & Ho' & Hf').
  unfold only_database_of. repeat split; try congruence.
  intros file Hfile. rewrite Hf' by (now rewrite Hc). now apply Hf.
Qed.

(** What a connection is not open on, [execute] leaves as it is. *)
Lemma execute_frame (con : handle) (sql : string) (w : duck) :
  only_database_of con w (snd (duck_execute reserved con sql w)).
Proof.
  unfold duck_execute.
  destruct (conns w !! con) as [[file0 read_only]|] eqn:Hcon;
    [|apply only_database_of_refl].
  destruct (parse sql) as [|t|t fpath|]; try apply only_database_of_refl.
  - destruct (bare_ident reserved t); [|apply only_database_of_refl].
    destruct (find_table t _); apply only_database_of_refl.
  - destruct (bare_ident reserved t); [|apply only_database_of_refl].
    destruct read_only; [apply only_database_of_refl|]. cbn [negb].
    destruct (csvs w !! fpath) as [[columns rows]|];
      [|apply only_database_of_refl].
    destruct (find_table t _); [apply only_database_of_refl|].
    unfold only_database_of. cbn. repeat split; auto. intros file Hfile.
    apply lookup_insert_ne. intros ->. now apply (Hfile false).
Qed.

Lemma load_loop_frame (self : BikeStoreDb) (con : handle)
  (entries : list string) :
  forall (count : nat) (w : duck),
    only_database_of con w
      (snd (for_each entries (load_file (duckdb reserved) self con) count w)).
Proof.
  induction entries as [|fname entries IH]; intros count w.
  - apply only_database_of_refl.
  - cbn [for_each]. unfold bind at 1, load_file at 1.
    destruct (str_endswith (str_lower fname) ".csv"); [|apply IH].
    unfold bind at 1. cbn [execute duckdb].
    pose proof (execute_frame con
                  (create_sql (fst (splitext fname))
                     (path_join (download_path self) fname)) w) as Hx.
    destruct (duck_execute reserved con _ w) as [[rows|e] w1];
      cbn [snd] in Hx; [|exact Hx].
    unfold ret at 1.
    eapply only_database_of_trans; [exact Hx | apply IH].
Qed.

Lemma connect_frame (file : string) (w : duck) :
  exists wa,
    duck_connect file false w = (Return (next_con w), wa)
    /\ dirs wa = dirs w /\ csvs wa = csvs w /\ stdout wa = stdout w
    /\ conns wa !! next_con w = Some (file, false)
    /\ dbs wa !! file = Some (tables_at w file)
    /\ forall file', file' <> file -> dbs wa !! file' = dbs w !! file'.
Proof.
  unfold duck_connect. destruct (dbs w !! file) as [db|] eqn:E.
  - eexists. split; [reflexivity|].
    cbn [dirs csvs stdout conns dbs set_conns set_dbs].
    do 3 (split; [reflexivity|]). split; [apply lookup_insert_eq|].
    split; [exact E|]. reflexivity.
  - eexists. split; [reflexivity|].
    cbn [dirs csvs stdout conns dbs set_conns set_dbs].
    do 3 (split; [reflexivity|]). split; [apply lookup_insert_eq|].
    split; [apply lookup_insert_eq|].
    intros file' Hne. now apply lookup_insert_ne.
Qed.


(** X6: the line that the load prints counts the entries that passed the .csv
    test, whether or not a table was created for each of them. *)
Theorem X6_load_reports_the_number_of_csv_files :
  forall (self : BikeStoreDb) (w w' : duck),
    _create_db (duckdb reserved) self w = (Return tt, w') ->
    exists entries,
      dirs w !! download_path self = Some entries
      /\ stdout w'
         = stdout w
           ++ ["Created " +:+ pretty (length (csv_files entries))
               +:+ " tables in " +:+ db_path self].
Proof.
  intros self w w'. unfold _create_db, bind at 1.
  cbn [connect listdir duckdb].
  destruct (connect_frame (db_path self) w)
    as (wa & -> & Hd & Hv & Ho & Hcon & Hdb & Hf).
  unfold bind at 1, duck_listdir at 1. rewrite Hd.
  destruct (dirs w !! download_path self) as [entries|]; [|discriminate].
  unfold bind at 1.
  pose proof (load_loop_frame self (next_con w) entries 0 wa) as Hl.
  destruct (for_each entries _ 0 wa) as [[c|e] wb] eqn:Hloop; [|discriminate].
  cbn [snd] in Hl. destruct Hl as (_ & _ & _ & _ & Ho' & _).
  apply LoadFacts.load_loop_count in Hloop. subst c.
  intros H. injection H as <-. exists entries. split; [reflexivity|].
  cbn. now rewrite Ho', Ho.
Qed.

(** X8: when read_csv_auto fails on a file, the load raises there: the tables
    of the files before it stay in the database, no file after it is read,
    the connection stays open and nothing is printed. *)
Theorem X8_failed_load_keeps_the_tables_before :
  forall (self : BikeStoreDb) (w : duck) (before : list string)
         (bad : string) (after : list string),
    dirs w !! download_path self = Some (before ++ bad :: after) ->
    forallb (sendable reserved self) (csv_files before) = true ->
    List.Forall
      (fun fname => is_Some (csvs w !! path_join (download_path self) fname))
      (csv_files before) ->
    List.NoDup
      (map str_lower
         (map tbl_name (tables_at w (db_path self))
          ++ map (fun fname => stem fname) (csv_files before))) ->
    is_csv bad = true ->
    sendable reserved self bad = true ->
    csvs w !! path_join (download_path self) bad = None ->
    exists e w' created,
      _create_db (duckdb reserved) self w = (Raise e, w')
      /\ dbs w' !! db_path self
         = Some (tables_at w (db_path self) ++ created)
      /\ Forall2 (is_table_of w self) (csv_files before) created
      /\ conns w' !! next_con w = Some (db_path self, false)
      /\ stdout w' = stdout w.
Proof.
  intros self w before bad after Hdir Hs Hr Hnd Hbad Hsb Hnone.
  unfold _create_db, bind at 1. cbn [connect listdir duckdb].
  destruct (connect_frame (db_path self) w)
    as (wa & -> & Hd & Hv & Ho & Hcon & Hdb & Hf).
  unfold bind at 1, duck_listdir at 1. rewrite Hd, Hdir.
  unfold bind at 1. rewrite for_each_app.
  destruct (load_loop reserved self (next_con w) before wa _ 0 Hcon Hdb Hs)
    as (created & Hloop & Hall).
  { now rewrite Hv. }
  { exact Hnd. }
  rewrite Hloop. cbn [for_each]. unfold bind at 1, load_file at 1.
  change (str_endswith (str_lower bad) ".csv") with (is_csv bad).
  rewrite Hbad. unfold bind at 1. cbn [execute duckdb].
  unfold sendable in Hsb. apply andb_true_iff in Hsb as [Hbare Hq].
  erewrite (execute_create_cases reserved (next_con w) _ (db_path self));
    [|exact Hcon | exact Hbare | exact Hq].
  cbn [csvs set_dbs]. rewrite Hv, Hnone.
  eexists. eexists. exists created. split; [reflexivity|].
  cbn [dbs conns stdout set_dbs].
  split; [apply lookup_insert_eq|].
  split; [unfold is_table_of in *; now rewrite Hv in Hall|].
  split; [exact Hcon | exact Ho].
Qed.

End OnTheModel.

Lemma X6_witness :
  exists entries,
    dirs twin_dataset !! download_path store = Some entries
    /\ stdout (snd (_create_db (duckdb sample_reserved) store twin_dataset))
       = stdout twin_dataset
         ++ ["Created " +:+ pretty (length (csv_files entries))
             +:+ " tables in " +:+ db_path store].
Proof.
  apply (X6_load_reports_the_number_of_csv_files sample_reserved store
           twin_dataset).
  reflexivity.
Defined.


Lemma X8_witness :
  exists e w' created,
    _create_db (duckdb sample_reserved) store broken_dataset = (Raise e, w')
    /\ dbs w' !! db_path store
       = Some (tables_at broken_dataset (db_path store) ++ created)
    /\ Forall2 (is_table_of broken_dataset store) (csv_files ["products.csv"])
         created
    /\ conns w' !! next_con broken_dataset = Some (db_path store, false)
    /\ stdout w' = stdout broken_dataset.
Proof.
  apply (X8_failed_load_keeps_the_tables_before sample_reserved store
           broken_dataset ["products.csv"] "orders.csv" ["stores.csv"]).
  - reflexivity.
  - reflexivity.
  - repeat constructor. eexists. reflexivity.
  - vm_compute. repeat constructor. intros [].
  - reflexivity.
  - reflexivity.
  - reflexivity.
Defined.

End LoadModelFacts.

(** * Introspection, on any platform and on the reference model *)

Module IntrospectionFacts.
Import BikeStore BikeStoreFacts Startup.

#[local] Arguments String.append !s1 s2 : simpl nomatch.

Lemma dict_set_keys {V} (k : string) (v : V) (d : list (string * V)) :
  forall name, In name (map fst (dict_set k v d)) <-> name = k \/ In name (map fst d).
Proof.
  induction d as [|[k' v'] d IH]; intros name; simpl.
  - split; [intros [<-|[]]; auto | intros [->|[]]; auto].
  - destruct (String.eqb k' k) eqn:E; simpl.
    + apply String.eqb_eq in E. subst k'. intuition congruence.
    + rewrite IH. intuition congruence.
Qed.

Lemma dict_set_NoDup {V} (k : string) (v : V) (d : list (string * V)) :
  List.NoDup (map fst d) -> List.NoDup (map fst (dict_set k v d)).
Proof.
  induction d as [|[k' v'] d IH]; simpl; intros H.
  - constructor; [intros [] | constructor].
  - inversion H as [|x l Hx Hnd]; subst.
    destruct (String.eqb k' k) eqn:E; simpl.
    + apply String.eqb_eq in E. subst k'. now constructor.
    + constructor; [|now apply IH].
      rewrite dict_set_keys. intros [->|Hin]; [|contradiction].
      now rewrite String.eqb_refl in E.
Qed.

Section AnyPlatform.

Context {W : Type} (P : platform W).

(** The loop of [get_schema_info] keeps the keys of the dict apart and adds
    the names listed, nothing else. *)
Lemma describe_loop_keys (con : handle) (tables : list row) :
  forall (acc : schema_dict) (w : W) (schema : schema_dict) (w' : W),
    for_each tables (describe_table P con) acc w = (Return schema, w') ->
    List.NoDup (map fst acc) ->
    List.NoDup (map fst schema)
    /\ forall name,
         In name (map fst schema)
         <-> In name (map fst acc) \/ In [name] tables.
Proof.
  induction tables as [|tup tables IH]; intros acc w schema w' H Hnd.
  - injection H as <- _. split; [exact Hnd|]. intros name. simpl. tauto.
  - cbn [for_each] in H. unfold bind at 1, describe_table at 1 in H.
    unfold bind at 1, unpack1 at 1 in H.
    destruct tup as [|table_name [|y tup]]; try discriminate H.
    unfold ret at 1 in H. unfold bind at 1 in H.
    destruct (execute P con _ w) as [[columns|e] w1]; [|discriminate H].
    unfold bind at 1 in H.
    destruct (comprehension column_dict columns w1) as [[cols|e] w2];
      [|discriminate H].
    unfold ret at 1 in H.
    destruct (IH _ _ _ _ H (dict_set_NoDup table_name cols acc Hnd))
      as (Hnd' & Hkeys).
    split; [exact Hnd'|]. intros name. rewrite Hkeys, dict_set_keys.
    simpl. split.
    + intros [[->|Hin]|Hin]; auto.
    + intros [Hin|[Heq|Hin]]; auto. injection Heq as ->. auto.
Qed.

(** X11: the dict that [get_schema_info] returns has one entry per table name
    that SHOW TABLES listed, and no other entry; a name listed twice has
    one entry. *)
Theorem X11_schema_has_one_entry_per_listed_table :
  forall (db_path : string) (w : W) (con : handle) (w1 : W)
         (tables : list row) (w2 : W) (schema : schema_dict) (w' : W),
    connect P db_path true w = (Return con, w1) ->
    execute P con "SHOW TABLES" w1 = (Return tables, w2) ->
    get_schema_info P db_path w = (Return schema, w') ->
    List.NoDup (map fst schema)
    /\ forall name, In name (map fst schema) <-> In [name] tables.
Proof.
  intros db_path w con w1 tables w2 schema w' Hc Hs. unfold get_schema_info.
  rewrite (bind_Return _ _ _ _ _ Hc), (bind_Return _ _ _ _ _ Hs).
  unfold bind at 1.
  destruct (for_each tables (describe_table P con) [] w2)
    as [[s|e] w3] eqn:Hloop; [|discriminate].
  intros H. injection H as <- _.
  destruct (describe_loop_keys con tables [] w2 s w3 Hloop) as (Hnd & Hkeys).
  { constructor. }
  split; [exact Hnd|]. intros name. rewrite Hkeys. simpl. tauto.
Qed.

Lemma describe_table_reads con tup acc w tr :
  exists calls,
    snd (snd (describe_table (traced P) con tup acc (w, tr))) = tr ++ calls
    /\ forall file, Forall (reading_call file) calls.
Proof.
  unfold describe_table, bind at 1.
  pose proof (unpack1_state tup (w, tr)) as Hu.
  destruct (unpack1 tup (w, tr)) as [[table_name|e] s]; simpl in Hu; subst s.
  2:{ exists []. split; [now rewrite app_nil_r | intros; constructor]. }
  unfold bind at 1. cbn [execute traced].
  assert (Hr : forall file,
             Forall (reading_call file)
               [EvExecute con ("DESCRIBE " +:+ table_name)]).
  { intros file. constructor; [|constructor]. right. eauto. }
  destruct (execute P con ("DESCRIBE " +:+ table_name) w) as [[columns|e] w1].
  2:{ eexists. split; [reflexivity | exact Hr]. }
  unfold bind at 1.
  match goal with |- context [comprehension column_dict columns ?s] =>
    pose proof (comprehension_column_dict_state columns s) as Hc;
    destruct (comprehension column_dict columns s) as [[cols|e] s1]
  end; simpl in Hc; subst s1;
    (eexists; split; [reflexivity | exact Hr]).
Qed.

Lemma describe_loop_reads con tables acc w tr :
  exists calls,
    snd (snd (for_each tables (describe_table (traced P) con) acc (w, tr)))
    = tr ++ calls
    /\ forall file, Forall (reading_call file) calls.
Proof.
  revert acc w tr. induction tables as [|tup tables IH]; intros acc w tr.
  - exists []. split; [now rewrite app_nil_r | intros; constructor].
  - simpl. unfold bind at 1.
    destruct (describe_table_reads con tup acc w tr) as (calls1 & H1 & F1).
    destruct (describe_table (traced P) con tup acc (w, tr))
      as [[acc'|e] [w1 tr1]]; simpl in H1; subst tr1.
    + destruct (IH acc' w1 (tr ++ calls1)) as (calls2 & H2 & F2).
      exists (calls1 ++ calls2). split.
      * now rewrite H2, app_assoc.
      * intros file. apply Forall_app. auto.
    + now exists calls1.
Qed.

(** X10: [get_schema_info] only reads: it opens no connection but a read-only
    one to the path it is given, and sends no statement but SHOW TABLES
    and DESCRIBE. *)
Theorem X10_introspection_sends_reading_calls_only :
  forall (db_path : string) (w : W),
    Forall (reading_call db_path)
      (snd (snd (get_schema_info (traced P) db_path (w, [])))).
Proof.
  intros db_path w. unfold get_schema_info, bind at 1. cbn [connect traced].
  destruct (connect P db_path true w) as [[con|e] w1]; [|constructor].
  unfold bind at 1. cbn [execute traced app].
  assert (Hhead : Forall (reading_call db_path)
                    [EvConnect db_path true con;
                     EvExecute con "SHOW TABLES"]).
  { constructor; [now split|]. constructor; [now left | constructor]. }
  destruct (execute P con "SHOW TABLES" w1) as [[tables|e] w2];
    [|exact Hhead].
  unfold bind at 1.
  match goal with |- context [for_each tables ?f ?a (w2, ?t)] =>
    destruct (describe_loop_reads con tables a w2 t) as (calls & Ht & Hf);
    destruct (for_each tables f a (w2, t)) as [[schema_info|e] [w3 tr3]]
  end; simpl in Ht; subst tr3; cbn.
  - change (EvConnect db_path true con
            :: EvExecute con "SHOW TABLES" :: calls ++ [EvClose con])
      with ([EvConnect db_path true con; EvExecute con "SHOW TABLES"]
            ++ calls ++ [EvClose con]).
    apply Forall_app. split; [exact Hhead|].
    apply Forall_app. split; [apply Hf | repeat constructor].
  - change (EvConnect db_path true con
            :: EvExecute con "SHOW TABLES" :: calls)
      with ([EvConnect db_path true con; EvExecute con "SHOW TABLES"]
            ++ calls).
    apply Forall_app. split; [exact Hhead | apply Hf].
Qed.

End AnyPlatform.

Section OnTheModel.

Variable reserved : string -> bool.

(** On a read-only connection no statement changes anything. *)
Lemma execute_read_only (con : handle) (sql file : string) (w : duck) :
  conns w !! con = Some (file, true) ->
  snd (duck_execute reserved con sql w) = w.
Proof.
  intros Hcon. unfold duck_execute. rewrite Hcon.
  destruct (parse sql) as [|t|t fpath|]; try reflexivity.
  - destruct (bare_ident reserved t); [|reflexivity].
    now destruct (find_table t _).
  - now destruct (bare_ident reserved t).
Qed.

Lemma describe_loop_read_only (con : handle) (file : string)
  (tables : list row) :
  forall (acc : schema_dict) (w : duck),
    conns w !! con = Some (file, true) ->
    snd (for_each tables (describe_table (duckdb reserved) con) acc w) = w.
Proof.
  induction tables as [|tup tables IH]; intros acc w Hcon; [reflexivity|].
  cbn [for_each]. unfold bind at 1, describe_table at 1. unfold bind at 1.
  pose proof (unpack1_state tup w) as Hu.
  destruct (unpack1 tup w) as [[table_name|e] s]; simpl in Hu; subst s;
    [|reflexivity].
  unfold bind at 1. cbn [execute duckdb].
  pose proof (execute_read_only con ("DESCRIBE " +:+ table_name) file w Hcon)
    as Hx.
  destruct (duck_execute reserved con _ w) as [[columns|e] w1];
    simpl in Hx; subst w1; [|reflexivity].
  unfold bind at 1.
  pose proof (comprehension_column_dict_state columns w) as Hc.
  destruct (comprehension column_dict columns w) as [[cols|e] s];
    simpl in Hc; subst s; [|reflexivity].
  unfold ret at 1. now apply IH.
Qed.

(** X9: introspection writes nothing: whatever the database and however the
    call ends, the database files, the directories, the CSV files and the
    output are as before; and when it returns, having opened a connection
    under a handle not in use, the connections open are those open before. *)
Theorem X9_introspection_changes_nothing :
  forall (file : string) (w : duck),
    let '(r, w') := get_schema_info (duckdb reserved) file w in
    dbs w' = dbs w /\ dirs w' = dirs w /\ csvs w' = csvs w
    /\ stdout w' = stdout w
    /\ (conns w !! next_con w = None ->
        forall schema, r = Return schema -> conns w' = conns w).
Proof.
  intros file w. unfold get_schema_info, bind at 1. cbn [connect duckdb].
  unfold duck_connect at 1.
  destruct (dbs w !! file) as [db|]; [|repeat split; discriminate].
  set (wa := set_conns _ _ w).
  assert (Hcon : conns wa !! next_con w = Some (file, true))
    by apply lookup_insert_eq.
  unfold bind at 1. cbn [execute duckdb].
  pose proof (execute_read_only (next_con w) "SHOW TABLES" file wa Hcon) as Hx.
  destruct (duck_execute reserved (next_con w) "SHOW TABLES" wa)
    as [[tables|e] w1]; simpl in Hx; subst w1;
    [|repeat split; discriminate].
  unfold bind at 1.
  pose proof (describe_loop_read_only (next_con w) file tables [] wa Hcon)
    as Hl.
  destruct (for_each tables _ [] wa) as [[schema|e] w2]; simpl in Hl; subst w2;
    [|repeat split; discriminate].
  cbn. repeat split. intros Hfresh _ _. now apply delete_insert_id.
Qed.

(** X12: on a database whose table names are bare and differ from one another,
    letter case aside, [get_schema_info] returns one entry per table, in
    the order of the catalog, each with the columns of the table in their
    order, and leaves the world as it was but for the handle it used. *)
Theorem X12_introspection_lists_every_table :
  forall (file : string) (w : duck) (db : database),
    dbs w !! file = Some db ->
    forallb (fun tb => bare_ident reserved (tbl_name tb)) db = true ->
    List.NoDup (map str_lower (map tbl_name db)) ->
    conns w !! next_con w = None ->
    get_schema_info (duckdb reserved) file w
    = (Return (map schema_entry db),
       set_conns (conns w) (S (next_con w)) w).
Proof.
  intros file w db Hdb Hbare Hnd Hfresh. unfold get_schema_info.
  unfold bind at 1. cbn [connect duckdb]. unfold duck_connect at 1.
  rewrite Hdb.
  set (wa := set_conns _ _ w).
  assert (Hcon : conns wa !! next_con w = Some (file, true))
    by apply lookup_insert_eq.
  unfold bind at 1. cbn [execute duckdb]. unfold duck_execute at 1.
  rewrite Hcon, parse_show_tables.
  change (dbs wa) with (dbs w). rewrite Hdb. cbn [default].
  change (id db) with db. unfold bind at 1.
  pose proof (describe_loop_engine reserved (next_con w) wa file true db
                Hcon Hdb Hbare Hnd db [] eq_refl) as Hloop.
  cbn [map] in Hloop. rewrite Hloop. unfold lift, bind, ret. f_equal.
  cbn [close duckdb]. unfold duck_close, wa, set_conns.
  cbn [dirs csvs dbs conns next_con stdout].
  now rewrite delete_insert_id by exact Hfresh.
Qed.

End OnTheModel.

Lemma X11_witness :
  List.NoDup (map fst [("products", products_columns)])
  /\ forall name,
       In name (map fst [("products", products_columns)])
       <-> In [name] [["products"]].
Proof.
  apply (X11_schema_has_one_entry_per_listed_table (duckdb sample_reserved)
           "bike_store.db"
           (snd (_create_db (duckdb sample_reserved) store no_database))
           1
           (snd (connect (duckdb sample_reserved) "bike_store.db" true
                   (snd (_create_db (duckdb sample_reserved) store
                           no_database))))
           [["products"]]
           (snd (connect (duckdb sample_reserved) "bike_store.db" true
                   (snd (_create_db (duckdb sample_reserved) store
                           no_database))))
           [("products", products_columns)]
           (snd (get_schema_info (duckdb sample_reserved) "bike_store.db"
                   (snd (_create_db (duckdb sample_reserved) store
                           no_database)))));
    reflexivity.
Defined.

Lemma X9_witness :
  let '(r, w') :=
    get_schema_info (duckdb sample_reserved) "bike_store.db" empty_database in
  dbs w' = dbs empty_database /\ dirs w' = dirs empty_database
  /\ csvs w' = csvs empty_database /\ stdout w' = stdout empty_database
  /\ (conns empty_database !! next_con empty_database = None ->
      forall schema, r = Return schema -> conns w' = conns empty_database).
Proof.
  exact (X9_introspection_changes_nothing sample_reserved "bike_store.db"
           empty_database).
Defined.

Lemma X12_witness :
  get_schema_info (duckdb sample_reserved) "bike_store.db" stale_database
  = (Return (map schema_entry [stale_table]),
     set_conns (conns stale_database) (S (next_con stale_database))
       stale_database).
Proof.
  apply (X12_introspection_lists_every_table sample_reserved "bike_store.db"
           stale_database [stale_table]).
  - reflexivity.
  - reflexivity.
  - vm_compute. repeat constructor. intros [].
  - reflexivity.
Defined.

End IntrospectionFacts.

(** * The schema text and the construction of the objects *)

Module ConstructionFacts.
Import BikeStore BikeStoreFacts Startup.

#[local] Arguments String.append !s1 s2 : simpl nomatch.

Lemma format_schema_lines (self : Agent.QueryWriter) :
  Agent._format_schema self
  = str_join LF (map Agent.table_line (Agent.schema self)).
Proof.
  unfold Agent._format_schema. now rewrite AgentFacts.schema_parts_loop.
Qed.

Lemma str_join_cons (sep x : string) (l : list string) :
  str_join sep (x :: l)
  = match l with [] => x | _ :: _ => x +:+ sep +:+ str_join sep l end.
Proof. reflexivity. Qed.

(** X13: the schema text is empty exactly when the catalog has no table. *)
Theorem X13_schema_text_empty_iff_no_table :
  forall self : Agent.QueryWriter,
    Agent._format_schema self = "" <-> Agent.schema self = [].
Proof.
  intros self. rewrite format_schema_lines. split.
  - destruct (Agent.schema self) as [|entry catalog]; [reflexivity|].
    cbn [map]. rewrite str_join_cons. intros H. exfalso.
    destruct (map Agent.table_line catalog);
      unfold Agent.table_line in H;
      cbv beta iota delta [String.append] in H; discriminate H.
  - now intros ->.
Qed.

Lemma count_char_app (c : ascii) (a b : string) :
  count_char c (a +:+ b) = count_char c a + count_char c b.
Proof.
  induction a as [|x a IH]; [reflexivity|].
  change (String x a +:+ b) with (String x (a +:+ b)).
  cbn [count_char]. rewrite IH. lia.
Qed.

Lemma count_single_line (s : string) :
  single_line s = true -> count_char (ascii_of_nat 10) s = 0.
Proof.
  unfold single_line. induction s as [|x s IH]; [reflexivity|].
  cbn [str_forall count_char]. intros H.
  apply andb_true_iff in H as [Hx Hs]. rewrite (IH Hs).
  now destruct (Ascii.eqb x (ascii_of_nat 10)).
Qed.

Lemma count_columns (columns : list column) :
  forallb (fun col => single_line (col_name col) && single_line (col_type col))
    columns = true ->
  count_char (ascii_of_nat 10)
    (str_join ", " (map Agent.column_pair columns)) = 0.
Proof.
  induction columns as [|col columns IH]; [reflexivity|].
  cbn [forallb map]. intros H. apply andb_true_iff in H as [Hc Hs].
  apply andb_true_iff in Hc as [Hn Ht].
  assert (Hpair : count_char (ascii_of_nat 10) (Agent.column_pair col) = 0).
  { unfold Agent.column_pair. rewrite !count_char_app.
    now rewrite (count_single_line _ Hn), (count_single_line _ Ht). }
  rewrite str_join_cons. destruct columns as [|col' columns]; [exact Hpair|].
  specialize (IH Hs). cbn [map] in IH |- *.
  rewrite !count_char_app, Hpair, IH. reflexivity.
Qed.

Lemma count_table_line (entry : string * list column) :
  single_line (fst entry)
  && forallb (fun col => single_line (col_name col)
                         && single_line (col_type col)) (snd entry) = true ->
  count_char (ascii_of_nat 10) (Agent.table_line entry) = 0.
Proof.
  intros H. apply andb_true_iff in H as [Hn Hc].
  unfold Agent.table_line. rewrite !count_char_app.
  now rewrite (count_single_line _ Hn), (count_columns _ Hc).
Qed.

Lemma count_lines (catalog : schema_dict) :
  catalog_single_line catalog = true ->
  count_char (ascii_of_nat 10) (str_join LF (map Agent.table_line catalog))
  = pred (length catalog).
Proof.
  unfold catalog_single_line.
  induction catalog as [|entry catalog IH]; [reflexivity|].
  cbn [forallb map length]. intros H. apply andb_true_iff in H as [He Hs].
  rewrite str_join_cons.
  destruct catalog as [|entry' catalog].
  - cbn [map pred]. now apply count_table_line.
  - specialize (IH Hs). cbn [map] in IH |- *.
    rewrite !count_char_app, (count_table_line _ He), IH.
    reflexivity.
Qed.

(** X14: when no table name, column name or column type holds a line feed, the
    schema text has exactly one line per table: the number of line feeds
    in it is the number of tables less one. *)
Theorem X14_schema_text_has_one_line_per_table :
  forall self : Agent.QueryWriter,
    catalog_single_line (Agent.schema self) = true ->
    count_char (ascii_of_nat 10) (Agent._format_schema self)
    = pred (length (Agent.schema self)).
Proof.
  intros self H. rewrite format_schema_lines. now apply count_lines.
Qed.

Lemma X14_witness :
  catalog_single_line (Agent.schema Agent.local_writer) = true
  /\ count_char (ascii_of_nat 10) (Agent._format_schema Agent.local_writer)
     = pred (length (Agent.schema Agent.local_writer)).
Proof.
  split; [reflexivity|].
  apply (X14_schema_text_has_one_line_per_table Agent.local_writer).
  reflexivity.
Defined.

Section AnyPlatform.

Context {W : Type} (P : platform W).

(** X18: when the download fails, [BikeStoreDb(...)] raises its error before
    DuckDB is called at all: no connection is opened, so no database file
    is created. *)
Theorem X18_failed_download_opens_nothing :
  forall (download : string -> M W string) (db_path : string) (w : W)
         (e : exn) (w1 : W),
    download "dillonmyrick/bike-store-sample-database" w = (Raise e, w1) ->
    BikeStoreDb__init__ (traced P) (traced_download download) db_path (w, [])
    = (Raise e, (w1, [])).
Proof.
  intros download db_path w e w1 H.
  unfold BikeStoreDb__init__, _download_data, bind, traced_download.
  now rewrite H.
Qed.

End AnyPlatform.

Section OnTheModel.

Variable reserved : string -> bool.

(** X15: the agent built on a database formats one line per table of it. *)
Theorem X15_agent_formats_the_tables_of_the_database :
  forall (environ : gmap string string) (file : string) (w : duck)
         (db : database),
    dbs w !! file = Some db ->
    forallb (fun tb => bare_ident reserved (tbl_name tb)) db = true ->
    List.NoDup (map str_lower (map tbl_name db)) ->
    exists writer w',
      QueryWriter__init__ (duckdb reserved) environ file w
      = (Return writer, w')
      /\ Agent.db_path writer = file
      /\ Agent.schema writer = map schema_entry db
      /\ Agent._format_schema writer
         = Agent.format_spec (map schema_entry db).
Proof.
  intros environ file w db Hdb Hbare Hnd.
  destruct (get_schema_info_engine reserved file w db Hdb Hbare Hnd)
    as (w' & Hget).
  eexists. exists w'. unfold QueryWriter__init__.
  rewrite (bind_Return _ _ _ _ _ Hget). split; [reflexivity|].
  cbn [Agent.db_path Agent.schema]. split; [reflexivity|].
  split; [reflexivity|]. now rewrite format_schema_lines.
Qed.

(** X16: the agent cannot be built before the database file exists: the
    constructor raises the error of the failed open. *)
Theorem X16_agent_needs_the_database_file :
  forall (environ : gmap string string) (file : string) (w : duck),
    dbs w !! file = None ->
    exists e,
      QueryWriter__init__ (duckdb reserved) environ file w = (Raise e, w)
      /\ exn_class e = "IOException".
Proof.
  intros environ file w Hdb. eexists.
  unfold QueryWriter__init__, get_schema_info, bind.
  cbn [connect duckdb]. unfold duck_connect. rewrite Hdb.
  split; reflexivity.
Qed.

(** X17: from the dataset to the prompt: after [BikeStoreDb(db_path)] has
    loaded a dataset, the text that [QueryWriter(db_path)] formats is made
    of one line per table of the database and no other line: the lines of
    the tables that were there and one line per CSV file, named as the file
    without the extension and listing the columns detected in the file.
    In which order the lines come is the order of SHOW TABLES, and is not
    stated. *)
Theorem X17_dataset_to_schema_text :
  forall (environ : gmap string string) (db_path path : string) (w : duck)
         (entries : list string),
    let self := {| db_path := db_path; download_path := path |} in
    dirs w !! path = Some entries ->
    forallb (sendable reserved self) (csv_files entries) = true ->
    List.Forall
      (fun fname => is_Some (csvs w !! path_join path fname))
      (csv_files entries) ->
    List.NoDup
      (map str_lower
         (map tbl_name (tables_at w db_path)
          ++ map (fun fname => stem fname) (csv_files entries))) ->
    forallb (fun tb => bare_ident reserved (tbl_name tb))
      (tables_at w db_path) = true ->
    exists w1 writer w2 created,
      BikeStoreDb__init__ (duckdb reserved) (downloaded path) db_path w
      = (Return self, w1)
      /\ QueryWriter__init__ (duckdb reserved) environ db_path w1
         = (Return writer, w2)
      /\ Forall2 (is_table_of w self) (csv_files entries) created
      /\ exists lines,
           Agent._format_schema writer = str_join LF lines
           /\ Permutation lines
                (map Agent.table_line
                   (map schema_entry (tables_at w db_path ++ created))).
Proof.
  intros environ db_path path w entries self Hdir Hs Hr Hnd Hbare.
  set (w0 := duck_print ("Downloaded dataset to " +:+ path) w).
  destruct (create_db_engine reserved self w0 entries Hdir Hs Hr Hnd)
    as (w1 & created & Hrun & Hdb & Hall & _).
  pose proof (tables_named _ _ _ _ Hall) as Hnames.
  change (tables_at w0 (BikeStore.db_path self)) with (tables_at w db_path)
    in Hdb.
  assert (Hnd1 : List.NoDup
                   (map str_lower
                      (map tbl_name (tables_at w db_path ++ created)))).
  { now rewrite map_app, Hnames. }
  assert (Hbare1 : forallb (fun tb => bare_ident reserved (tbl_name tb))
                     (tables_at w db_path ++ created) = true).
  { rewrite forallb_app, Hbare. simpl.
    now apply (tables_bare reserved self w0 _ _ Hs). }
  destruct (get_schema_info_engine reserved db_path w1 _ Hdb Hbare1 Hnd1)
    as (w2 & Hget).
  exists w1. eexists. exists w2, created.
  split.
  { unfold BikeStoreDb__init__, _download_data, downloaded.
    unfold bind at 1. unfold bind at 1. unfold bind at 1.
    unfold lift at 1, ret at 1. cbn [print duckdb]. fold w0. fold self.
    unfold bind at 1. now rewrite Hrun. }
  split.
  { unfold QueryWriter__init__. now rewrite (bind_Return _ _ _ _ _ Hget). }
  split; [exact Hall|].
  eexists. split; [apply format_schema_lines | apply Permutation_refl].
Qed.

End OnTheModel.

Lemma X15_witness :
  exists writer w',
    QueryWriter__init__ (duckdb sample_reserved) ∅ "bike_store.db"
      stale_database
    = (Return writer, w')
    /\ Agent.db_path writer = "bike_store.db"
    /\ Agent.schema writer = map schema_entry [stale_table]
    /\ Agent._format_schema writer
       = Agent.format_spec (map schema_entry [stale_table]).
Proof.
  apply (X15_agent_formats_the_tables_of_the_database sample_reserved ∅
           "bike_store.db" stale_database [stale_table]).
  - reflexivity.
  - reflexivity.
  - vm_compute. repeat constructor. intros [].
Defined.

Lemma X16_witness :
  exists e,
    QueryWriter__init__ (duckdb sample_reserved) ∅ "bike_store.db" no_database
    = (Raise e, no_database)
    /\ exn_class e = "IOException".
Proof.
  apply (X16_agent_needs_the_database_file sample_reserved ∅ "bike_store.db"
           no_database).
  reflexivity.
Defined.

Lemma X17_witness :
  exists w1 writer w2 created,
    BikeStoreDb__init__ (duckdb sample_reserved) (downloaded "/data")
      "bike_store.db" no_database
    = (Return store, w1)
    /\ QueryWriter__init__ (duckdb sample_reserved) ∅ "bike_store.db" w1
       = (Return writer, w2)
    /\ Forall2 (is_table_of no_database store)
         (csv_files ["products.csv"; "README.md"]) created
    /\ exists lines,
         Agent._format_schema writer = str_join LF lines
         /\ Permutation lines
              (map Agent.table_line
                 (map schema_entry (tables_at no_database "bike_store.db"
                                    ++ created))).
Proof.
  apply (X17_dataset_to_schema_text sample_reserved ∅ "bike_store.db" "/data"
           no_database ["products.csv"; "README.md"]).
  - reflexivity.
  - reflexivity.
  - repeat constructor. eexists. reflexivity.
  - vm_compute. repeat constructor. intros [].
  - reflexivity.
Defined.

Lemma X18_witness :
  BikeStoreDb__init__ (traced (duckdb sample_reserved))
    (traced_download (download_fails (Exn "ConnectionError" "offline")))
    "bike_store.db" (no_database, [])
  = (Raise (Exn "ConnectionError" "offline"), (no_database, [])).
Proof.
  apply (X18_failed_download_opens_nothing (duckdb sample_reserved)
           (download_fails (Exn "ConnectionError" "offline"))).
  reflexivity.
Defined.

End ConstructionFacts.
